(** * fluff: calculators, indicator documents and their diffs

    A shallow embedding of [fluff/__init__.py].  Python objects that the
    module inspects dynamically (class attributes, decorated methods,
    [window]/[offsets] configuration) are modelled by the small universe
    [pyobj]; Python sets and dicts are [gset]/[gmap]; exceptions are the
    [Raise] branch of [result]. *)

From Stdlib Require Import ZArith.
From stdpp Require Import gmap strings list fin_maps fin_sets.

Local Open Scope string_scope.
Set Warnings "-clear-no-such-hyp".

(** ** Exceptions and the result monad *)

Inductive config_msg :=
| WindowMustBeTimedelta
    (* 'window must be timedelta, not %s' *)
| EmittersNotCovered (names : gset string).
    (* 'The following emitters need to be added to your offsets, ...: %s' *)

Inductive exn :=
| NotImplementedError (msg : config_msg)
| EmitterTypeError (emitter_type : string)
| ResourceNotFound
| KeyError
| AttributeError
| TypeError
| AssertionError.

Inductive result (A : Type) :=
| Ok (a : A)
| Raise (e : exn).
Arguments Ok {A} a.
Arguments Raise {A} e.

Definition bind {A B} (r : result A) (k : A -> result B) : result B :=
  match r with
  | Ok a => k a
  | Raise e => Raise e
  end.

Notation "'let*' x ':=' e 'in' k" := (bind e (fun x => k))
  (at level 10, x pattern, e at level 100, k at level 200).

(** [for x in xs: acc = step(acc, x)] where the body may raise. *)
Fixpoint for_each {A S} (step : S -> A -> result S) (xs : list A) (acc : S)
  : result S :=
  match xs with
  | [] => Ok acc
  | x :: rest => let* acc' := step acc x in for_each step rest acc'
  end.

(** A list comprehension whose element expression may raise. *)
Fixpoint comprehension {A B} (f : A -> result B) (xs : list A) : result (list B) :=
  match xs with
  | [] => Ok []
  | x :: rest =>
      let* y := f x in
      let* ys := comprehension f rest in
      Ok (y :: ys)
  end.

(** ** Values *)

(** Emitted values and identifiers: what ends up in JSON. *)
Inductive value :=
| VInt (z : Z)
| VStr (s : string).

#[global] Instance value_eq_dec : EqDecision value.
Proof. solve_decision. Defined.

Definition value_to_sum (v : value) : Z + string :=
  match v with VInt z => inl z | VStr s => inr s end.
Definition value_of_sum (x : Z + string) : value :=
  match x with inl z => VInt z | inr s => VStr s end.

#[global] Instance value_countable : Countable value.
Proof.
  apply (inj_countable' value_to_sum value_of_sum).
  intros []; reflexivity.
Defined.

(** The source item handed to emitters and filters ([item.get_id],
    [item[attr]]). *)
Record SourceDoc := {
  get_id : string;
  item_fields : gmap string value;
}.

(** The composite key of the [fluff/generic] view. *)
Inductive key_part :=
| KStr (s : string)
| KVal (v : value)
| KDate (d : Z)         (* json_format_date(d) *)
| KNull.

(** What a tagged method may be applied to: an item (emitters, filters) or
    the [FluffResult] (post-processing emitters). *)
Inductive pyarg :=
| ArgItem (item : SourceDoc)
| ArgResult (doc_type : string) (key : list value) (calc_name : string).

Inductive retval :=
| RBool (b : bool)
| RSeq (vs : list value).

Definition truthy_ret (r : retval) : bool :=
  match r with
  | RBool b => b
  | RSeq vs => match vs with [] => false | _ => true end
  end.

(** [list(r)] *)
Definition list_of_ret (r : retval) : result (list value) :=
  match r with
  | RSeq vs => Ok vs
  | RBool _ => Raise TypeError
  end.

(** A function object with the attributes the decorators [date_emitter],
    [null_emitter], [post_process] and [filter_by] may have set on it. *)
Record method := Method {
  _fluff_emitter : option string;
  _fluff_filter : bool;
  call : pyarg -> retval;
}.

Definition date_emitter (fn : method) : method :=
  {| _fluff_emitter := Some "date"; _fluff_filter := _fluff_filter fn; call := call fn |}.
Definition null_emitter (fn : method) : method :=
  {| _fluff_emitter := Some "null"; _fluff_filter := _fluff_filter fn; call := call fn |}.
Definition post_process (fn : method) : method :=
  {| _fluff_emitter := Some "delayed"; _fluff_filter := _fluff_filter fn; call := call fn |}.
Definition filter_by (fn : method) : method :=
  {| _fluff_emitter := _fluff_emitter fn; _fluff_filter := true; call := call fn |}.
Definition def (f : pyarg -> retval) : method :=
  {| _fluff_emitter := None; _fluff_filter := false; call := f |}.

(** The objects found in a calculator's class body or instance dict. *)
Inductive pyobj :=
| PyNone
| PyTimedelta (d : Z)
| PyDict (o : gmap string (Z * Z))     (* offsets: emitter -> (start, end) *)
| PyFunction (m : method)
| PyOther (truth : bool).              (* anything else, with its truth value *)

Definition truthy (o : pyobj) : bool :=
  match o with
  | PyNone => false
  | PyTimedelta d => negb (d =? 0)%Z
  | PyDict o => negb (bool_decide (o = ∅))
  | PyFunction _ => true
  | PyOther b => b
  end.

Definition isinstance_timedelta (o : pyobj) : bool :=
  match o with PyTimedelta _ => true | _ => false end.

(** [getattr(o, '_fluff_emitter', None)], as a truth value. *)
Definition has_emitter_tag (o : pyobj) : bool :=
  match o with
  | PyFunction m =>
      match _fluff_emitter m with
      | Some tag => negb (String.eqb tag "")
      | None => false
      end
  | _ => false
  end.

(** [getattr(o, '_fluff_filter', False)], as a truth value. *)
Definition has_filter_tag (o : pyobj) : bool :=
  match o with
  | PyFunction m => _fluff_filter m
  | _ => false
  end.

(** ** CalculatorMeta *)

(** A class created by [CalculatorMeta].  [cls_dict] is what attribute lookup
    on the class resolves to: the class body first, then the bases from left
    to right. *)
Record CalcClass := {
  cls_name : string;
  cls_dict : gmap string pyobj;
  _fluff_emitters : gset string;
  _fluff_filters : gset string;
  _counter : nat;
}.

Inductive pybase :=
| CalcBase (p : CalcClass)                 (* isinstance(p, CalculatorMeta) *)
| PlainBase (d : gmap string pyobj).       (* object, mixins *)

Definition base_dict (b : pybase) : gmap string pyobj :=
  match b with
  | CalcBase p => cls_dict p
  | PlainBase d => d
  end.

(** [parents = [p for p in bases if isinstance(p, CalculatorMeta)]] *)
Definition parents_of (bases : list pybase) : list CalcClass :=
  omap (fun b => match b with CalcBase p => Some p | PlainBase _ => None end) bases.

Definition tagged (tag : pyobj -> bool) (attrs : gmap string pyobj) : gset string :=
  dom (filter (fun kv => tag kv.2 = true) attrs).

(** [CalculatorMeta.__new__(mcs, name, bases, attrs)], threading the
    metaclass counter [mcs._counter]. *)
Definition CalculatorMeta_new (mcs_counter : nat) (name : string)
    (bases : list pybase) (attrs : gmap string pyobj) : CalcClass * nat :=
  let emitters := tagged has_emitter_tag attrs in
  let filters := tagged has_filter_tag attrs in
  let parents := parents_of bases in
  let emitters := foldl (fun acc p => acc ∪ _fluff_emitters p) emitters parents in
  let filters := foldl (fun acc p => acc ∪ _fluff_filters p) filters parents in
  ({| cls_name := name;
      cls_dict := foldl (fun acc b => acc ∪ base_dict b) attrs bases;
      _fluff_emitters := emitters;
      _fluff_filters := filters;
      _counter := mcs_counter |},
   S mcs_counter).

(** ** Calculator *)

Record Calculator := {
  klass : CalcClass;
  inst_dict : gmap string pyobj;
}.

Definition getattr (self : Calculator) (name : string) : result pyobj :=
  match inst_dict self !! name with
  | Some o => Ok o
  | None =>
      match cls_dict (klass self) !! name with
      | Some o => Ok o
      | None => Raise AttributeError
      end
  end.

Definition setattr (self : Calculator) (name : string) (o : pyobj) : Calculator :=
  {| klass := klass self; inst_dict := <[name := o]> (inst_dict self) |}.

(** [o.keys()] as a set. *)
Definition keys_of (o : pyobj) : result (gset string) :=
  match o with
  | PyDict d => Ok (dom d)
  | _ => Raise AttributeError
  end.

(** [Calculator.__init__(self, window=None)] for an instance of [cls]. *)
Definition Calculator_init (cls : CalcClass) (window : pyobj) : result Calculator :=
  let self := {| klass := cls; inst_dict := ∅ |} in
  let self :=
    match window with
    | PyNone => self
    | _ => setattr self "window" window
    end in
  let* offsets := getattr self "offsets" in
  let self := setattr self "offsets" (if truthy offsets then offsets else PyDict ∅) in
  let emitters_not_covered := _fluff_emitters (klass self) in
  let* offsets := getattr self "offsets" in
  let* keys := keys_of offsets in
  let emitters_not_covered :=
    foldl (fun acc emitter => acc ∖ {[emitter]}) emitters_not_covered
          (elements (keys ∩ emitters_not_covered)) in
  let* w := getattr self "window" in
  let emitters_not_covered := if truthy w then ∅ else emitters_not_covered in
  if negb (isinstance_timedelta w) then
    Raise (NotImplementedError WindowMustBeTimedelta)
  else if negb (bool_decide (emitters_not_covered = ∅)) then
    Raise (NotImplementedError (EmittersNotCovered emitters_not_covered))
  else Ok self.

(** The class body of [Calculator] itself. *)
Definition Calculator_attrs : gmap string pyobj :=
  list_to_map
    [("window", PyNone); ("offsets", PyNone); ("fluff", PyNone); ("slug", PyNone);
     ("_fluff_emitters", PyNone); ("_fluff_filters", PyNone);
     ("filter", PyFunction (def (fun _ => RBool true)));
     ("to_python", PyOther true); ("calculate", PyOther true);
     ("get_window", PyOther true); ("get_result", PyOther true);
     ("__init__", PyOther true)].

Definition Calculator_class : CalcClass :=
  (CalculatorMeta_new 0 "Calculator" [PlainBase ∅] Calculator_attrs).1.

(** [getattr(self, slug)(arg)] *)
Definition call_method (self : Calculator) (slug : string) (arg : pyarg)
  : result retval :=
  let* o := getattr self slug in
  match o with
  | PyFunction m => Ok (call m arg)
  | _ => Raise TypeError
  end.

(** [all(getattr(self, slug)(item) for slug in slugs)]: lazy, stops at the
    first falsy predicate. *)
Fixpoint all_filters (self : Calculator) (item : SourceDoc) (slugs : list string)
  : result bool :=
  match slugs with
  | [] => Ok true
  | slug :: rest =>
      let* r := call_method self slug (ArgItem item) in
      if truthy_ret r then all_filters self item rest else Ok false
  end.

(** [emitter._fluff_emitter] *)
Definition emitter_type_of (o : pyobj) : result string :=
  match o with
  | PyFunction m =>
      match _fluff_emitter m with
      | Some tag => Ok tag
      | None => Raise AttributeError
      end
  | _ => Raise AttributeError
  end.

Definition is_stored_type (tag : string) : bool :=
  String.eqb tag "date" || String.eqb tag "null".

Definition calculate_step (self : Calculator) (item : SourceDoc) (passes_filter : bool)
    (values : gmap string (list value)) (slug : string)
  : result (gmap string (list value)) :=
  let* emitter := getattr self slug in
  let* tag := emitter_type_of emitter in
  if is_stored_type tag then
    let* vs :=
      if passes_filter then
        match emitter with
        | PyFunction m => list_of_ret (call m (ArgItem item))
        | _ => Raise TypeError
        end
      else Ok [] in
    Ok (<[slug := vs]> values)
  else Ok values.

(** [Calculator.calculate(self, item)] *)
Definition Calculator_calculate (self : Calculator) (item : SourceDoc)
  : result (gmap string (list value)) :=
  let* f := call_method self "filter" (ArgItem item) in
  let* passes_filter :=
    if truthy_ret f
    then all_filters self item (elements (_fluff_filters (klass self)))
    else Ok false in
  for_each (calculate_step self item passes_filter)
           (elements (_fluff_emitters (klass self))) ∅.

(** [Calculator.get_window(self, now, emitter)]; instants and durations are
    integers in a common unit. *)
Definition get_window (self : Calculator) (now : Z) (emitter : string)
  : result (Z * Z) :=
  let* offsets := getattr self "offsets" in
  match offsets with
  | PyDict o =>
      match o !! emitter with
      | Some (start, end_) => Ok (now + start, now + end_)%Z
      | None =>
          let* w := getattr self "window" in
          match w with
          | PyTimedelta d => Ok (now - d, now)%Z
          | _ => Raise TypeError
          end
      end
  | _ => Raise TypeError
  end.

(** ** IndicatorDocument *)

(** An indicator document type, as left by [IndicatorDocumentMeta]: the
    calculators found in the class body, keyed by attribute name. *)
Record IndicatorClass := {
  ind_name : string;                          (* cls.__name__ *)
  _doc_type : string;
  app_label : string;                         (* cls.Meta.app_label *)
  _calculators : gmap string Calculator;
  default_group_by : list string;             (* type(self)().group_by *)
}.

(** A document instance (and its [to_json()] form).  The per-calculator
    dict properties live in [state], the remaining dynamic properties in
    [fields]. *)
Record IndicatorDocument := {
  _id : string;
  id : option string;
  state : gmap string (gmap string (list value));
  fields : gmap string value;
  group_by : list string;
}.

(** [self[calc_name]] on a document object: an unset [DictProperty] reads as
    the empty dict. *)
Definition doc_calc (self : IndicatorDocument) (calc_name : string)
  : gmap string (list value) :=
  default ∅ (state self !! calc_name).

(** [self[attr]] for a dynamic property. *)
Definition doc_field (self : IndicatorDocument) (attr : string) : result value :=
  match fields self !! attr with
  | Some v => Ok v
  | None => Raise AttributeError
  end.

(** [d[k]] on a plain dict. *)
Definition getitem {V} (d : gmap string V) (k : string) : result V :=
  match d !! k with
  | Some v => Ok v
  | None => Raise KeyError
  end.

(** [item[attr]] on the source document. *)
Definition item_field (item : SourceDoc) (attr : string) : result value :=
  match item_fields item !! attr with
  | Some v => Ok v
  | None => Raise AttributeError
  end.

Definition set_calc (self : IndicatorDocument) (attr : string)
    (v : gmap string (list value)) : IndicatorDocument :=
  {| _id := _id self; id := id self; state := <[attr := v]> (state self);
     fields := fields self; group_by := group_by self |}.

Definition set_field (self : IndicatorDocument) (attr : string) (v : value)
  : IndicatorDocument :=
  {| _id := _id self; id := id self; state := state self;
     fields := <[attr := v]> (fields self); group_by := group_by self |}.

(** [IndicatorDocument.calculate(self, item)] *)
Definition IndicatorDocument_calculate (cls : IndicatorClass)
    (self : IndicatorDocument) (item : SourceDoc) : result IndicatorDocument :=
  let* self :=
    for_each (fun self '(attr, calculator) =>
                let* v := Calculator_calculate calculator item in
                Ok (set_calc self attr v))
             (map_to_list (_calculators cls)) self in
  let self :=
    {| _id := _id self; id := Some (get_id item); state := state self;
       fields := fields self; group_by := group_by self |} in
  let* self :=
    for_each (fun self attr =>
                let* v := item_field item attr in
                Ok (set_field self attr v))
             (group_by self) self in
  Ok {| _id := _id self; id := id self; state := state self;
        fields := fields self; group_by := default_group_by cls |}.

(** The three shapes [_shallow_dict_diff] returns besides [None]:
    [d.keys()] is a list, the last branch builds a set. *)
Inductive names :=
| NamesList (l : list string)
| NamesSet (s : gset string).

Definition names_truthy (ns : names) : bool :=
  match ns with
  | NamesList l => match l with [] => false | _ => true end
  | NamesSet s => negb (bool_decide (s = ∅))
  end.

Definition names_iter (ns : names) : list string :=
  match ns with
  | NamesList l => l
  | NamesSet s => elements s
  end.

Definition dict_keys {V} (d : gmap string V) : list string := (map_to_list d).*1.

Definition dict_truthy {V} (d : gmap string V) : bool := negb (bool_decide (d = ∅)).

(** [IndicatorDocument._shallow_dict_diff(self, left, right)] *)
Definition _shallow_dict_diff (left right : gmap string (list value)) : option names :=
  if negb (dict_truthy left) && negb (dict_truthy right) then None
  else if negb (dict_truthy left) || negb (dict_truthy right) then
    Some (NamesList (if dict_truthy left then dict_keys left else dict_keys right))
  else
    let left_set : gset string := dom left in
    let right_set : gset string := dom right in
    let intersect := right_set ∩ left_set in
    let added := right_set ∖ intersect in
    let removed := left_set ∖ intersect in
    let changed := filter (fun o => left !! o ≠ right !! o) intersect in
    Some (NamesSet (added ∪ removed ∪ changed)).

Record change := {
  calculator : string;
  emitter : string;
  emitter_type : string;
  values : list value;
}.

Record descriptor := {
  database : string;
  doc_type : string;
  group_names : list string;
  group_values : list value;
  indicator_changes : list change;
}.

(** [list(set(xs) - set(ys))] *)
Definition set_minus (xs ys : list value) : list value :=
  elements ((list_to_set xs : gset value) ∖ list_to_set ys).

(** The body of the loop in [_indicator_diff]: the change entry of one
    emitter. *)
Definition indicator_change (cls : IndicatorClass) (self : IndicatorDocument)
    (calc_name : string) (other_doc : option IndicatorDocument)
    (emitter_name : string) : result change :=
  let* values_diff :=
    match other_doc with
    | Some other =>
        let* mine := getitem (doc_calc self calc_name) emitter_name in
        let* other_calc := getitem (state other) calc_name in
        let* theirs := getitem other_calc emitter_name in
        Ok (set_minus mine theirs)
    | None => getitem (doc_calc self calc_name) emitter_name
    end in
  let* calc := getitem (_calculators cls) calc_name in
  let* em := getattr calc emitter_name in
  let* ty := emitter_type_of em in
  Ok {| calculator := calc_name; emitter := emitter_name;
        emitter_type := ty; values := values_diff |}.

(** [IndicatorDocument._indicator_diff(self, calc_name, emitter_names, other_doc)] *)
Definition _indicator_diff (cls : IndicatorClass) (self : IndicatorDocument)
    (calc_name : string) (emitter_names : names)
    (other_doc : option IndicatorDocument) : result (list change) :=
  comprehension (indicator_change cls self calc_name other_doc)
                (names_iter emitter_names).

(** The inner loop of [diff] when there is no previous document:
    [diff_keys.setdefault(calc_name, []).append(emitter_name)]. *)
Definition append_name (calc_name : string) (diff_keys : gmap string names)
    (emitter_name : string) : gmap string names :=
  match diff_keys !! calc_name with
  | Some (NamesList l) => <[calc_name := NamesList (l ++ [emitter_name])]> diff_keys
  | Some (NamesSet s) => <[calc_name := NamesSet ({[emitter_name]} ∪ s)]> diff_keys
  | None => <[calc_name := NamesList [emitter_name]]> diff_keys
  end.

Definition values_truthy (vs : list value) : bool :=
  match vs with [] => false | _ => true end.

Definition diff_keys_step (self : IndicatorDocument)
    (other_doc : option IndicatorDocument) (diff_keys : gmap string names)
    (calc_name : string) : result (gmap string names) :=
  match other_doc with
  | Some other =>
      let* right_ := getitem (state other) calc_name in
      match _shallow_dict_diff (doc_calc self calc_name) right_ with
      | Some calc_diff =>
          if names_truthy calc_diff
          then Ok (<[calc_name := calc_diff]> diff_keys)
          else Ok diff_keys
      | None => Ok diff_keys
      end
  | None =>
      Ok (foldl (fun dk '(emitter_name, vs) =>
                   if values_truthy vs then append_name calc_name dk emitter_name
                   else dk)
                diff_keys (map_to_list (doc_calc self calc_name)))
  end.

(** [IndicatorDocument.diff(self, other_doc)] *)
Definition IndicatorDocument_diff (cls : IndicatorClass) (self : IndicatorDocument)
    (other_doc : option IndicatorDocument) : result (option descriptor) :=
  let* diff_keys :=
    for_each (diff_keys_step self other_doc) (dict_keys (_calculators cls)) ∅ in
  if negb (dict_truthy diff_keys) then Ok None
  else
    let* gvalues := comprehension (doc_field self) (group_by self) in
    let* indicators :=
      comprehension
        (fun '(calc_name, emitter_names) =>
           _indicator_diff cls self calc_name emitter_names other_doc)
        (map_to_list diff_keys) in
    Ok (Some {| database := app_label cls;
                doc_type := _doc_type cls;
                group_names := group_by self;
                group_values := gvalues;
                indicator_changes := concat indicators |}).

(** ** FluffResult *)

Record row := {
  row_id : string;       (* row['id'] *)
  row_value : Z;         (* row['value'] *)
}.

(** The arguments of [indicator_doc.view('fluff/generic', ...)]. *)
Inductive view_query :=
| ViewRange (startkey endkey : list key_part) (reduce : bool)
| ViewKey (key : list key_part) (reduce : bool).

Record FluffResult := {
  indicator_doc : IndicatorClass;
  calc_name : string;
  key : list value;
}.

(** What [_get] hands back: a count, stripped identifiers, or whatever a
    post-processing emitter returned. *)
Inductive get_value :=
| GCount (n : Z)
| GIds (ids : list string)
| GRaw (r : retval).

(** The local function [strip] of [_get]. *)
Definition strip (self : FluffResult) (id_string : string) : result string :=
  let prefix := ind_name (indicator_doc self) ++ "-" in
  if String.prefix prefix id_string
  then Ok (String.substring (String.length prefix)
                            (String.length id_string - String.length prefix)
                            id_string)
  else Raise AssertionError.

(** [shared_key = [doc_type] + self.key + [self.calc_name, slug]] *)
Definition shared_key (self : FluffResult) (slug : string) : list key_part :=
  ([KStr (_doc_type (indicator_doc self))] ++ (KVal <$> key self)
     ++ [KStr (calc_name self); KStr slug])%list.

Section ResultReader.
(** The store's view engine and the clock are external. *)
Variable view : view_query -> list row.
Variable utcnow_date : Z.

(** [FluffResult._get(self, slug, reduce)] *)
Definition FluffResult_get (self : FluffResult) (slug : string) (reduce : bool)
  : result get_value :=
  let doc_type := _doc_type (indicator_doc self) in
  let shared_key := shared_key self slug in
  let* calc := getitem (_calculators (indicator_doc self)) (calc_name self) in
  let* em := getattr calc slug in
  let* ty := emitter_type_of em in
  let finish (q : list row) : result get_value :=
    if reduce then
      match q with
      | r :: _ => Ok (GCount (row_value r))
      | [] => Ok (GCount 0)
      end
    else
      let* ids := comprehension (fun r => strip self (row_id r)) q in
      Ok (GIds ids) in
  if String.eqb ty "date" then
    let now := utcnow_date in
    let* (start, end_) := get_window calc now slug in
    finish (view (ViewRange (shared_key ++ [KDate start])%list
                            (shared_key ++ [KDate end_])%list reduce))
  else if String.eqb ty "null" then
    finish (view (ViewKey (shared_key ++ [KNull])%list reduce))
  else if String.eqb ty "delayed" then
    match em with
    | PyFunction m =>
        let ids := call m (ArgResult doc_type (key self) (calc_name self)) in
        if reduce then
          match ids with
          | RSeq l => Ok (GCount (Z.of_nat (length l)))
          | RBool _ => Raise TypeError
          end
        else Ok (GRaw ids)
    | _ => Raise TypeError
    end
  else Raise (EmitterTypeError ty).
End ResultReader.

(** ** FluffPillow *)

Record FluffPillow := {
  (* document_class.wrap: decoding of the raw change, external *)
  document_class_wrap : gmap string value -> result SourceDoc;
  indicator_class : IndicatorClass;
}.

(** The document store, keyed by [_id]. *)
Definition store_get (db : gmap string IndicatorDocument) (doc_id : string)
  : result IndicatorDocument :=
  match db !! doc_id with
  | Some d => Ok d
  | None => Raise ResourceNotFound
  end.

(** [indicator_class(_id=indicator_id)] *)
Definition new_indicator (cls : IndicatorClass) (indicator_id : string)
  : IndicatorDocument :=
  {| _id := indicator_id; id := None; state := ∅; fields := ∅;
     group_by := default_group_by cls |}.

(** [try: ... except ResourceNotFound: current_indicator = None] *)
Definition get_or_none (db : gmap string IndicatorDocument) (indicator_id : string)
  : result (option IndicatorDocument) :=
  match store_get db indicator_id with
  | Ok d => Ok (Some d)
  | Raise ResourceNotFound => Ok None
  | Raise e => Raise e
  end.

(** [FluffPillow.change_transform(self, doc_dict)] *)
Definition change_transform (self : FluffPillow) (db : gmap string IndicatorDocument)
    (doc_dict : gmap string value)
  : result (option IndicatorDocument * IndicatorDocument) :=
  let* doc := document_class_wrap self doc_dict in
  let indicator_id := ind_name (indicator_class self) ++ "-" ++ get_id doc in
  let* current_indicator := get_or_none db indicator_id in
  let '(current_indicator, indicator) :=
    match current_indicator with
    | None => (None, new_indicator (indicator_class self) indicator_id)
    | Some d => (Some d (* indicator.to_json() *), d)
    end in
  let* indicator := IndicatorDocument_calculate (indicator_class self) indicator doc in
  Ok (current_indicator, indicator).

(** [FluffPillow.change_transport(self, indicators)]: the new store and the
    diff sent with [indicator_document_updated], if any. *)
Definition change_transport (self : FluffPillow) (db : gmap string IndicatorDocument)
    (indicators : option IndicatorDocument * IndicatorDocument)
  : result (gmap string IndicatorDocument * option descriptor) :=
  let '(old_indicator, new_indicator) := indicators in
  let db := <[_id new_indicator := new_indicator]> db in
  let* diff := IndicatorDocument_diff (indicator_class self) new_indicator old_indicator in
  Ok (db, diff).

(** One change through the pillow: transform, then transport. *)
Definition process_change (self : FluffPillow) (db : gmap string IndicatorDocument)
    (doc_dict : gmap string value)
  : result (gmap string IndicatorDocument * option descriptor) :=
  let* indicators := change_transform self db doc_dict in
  change_transport self db indicators.

(** ** Worked instances *)

Module Sample.
Definition item_flag (arg : pyarg) (name : string) : bool :=
  match arg with
  | ArgItem item => bool_decide (item_fields item !! name = Some (VInt 1))
  | ArgResult _ _ _ => false
  end.

Definition item_values (arg : pyarg) (name : string) : list value :=
  match arg with
  | ArgItem item =>
      match item_fields item !! name with Some v => [v] | None => [] end
  | ArgResult _ _ _ => []
  end.

(** class Visits(Calculator): one date emitter, one null emitter, one
    post-processing emitter and a filter. *)
Definition Visits_attrs : gmap string pyobj :=
  list_to_map
    [("all_visits", PyFunction (date_emitter (def (fun a => RSeq (item_values a "date")))));
     ("e", PyFunction (date_emitter (def (fun a => RSeq (item_values a "e")))));
     ("owner", PyFunction (null_emitter (def (fun a => RSeq (item_values a "owner")))));
     ("late", PyFunction (post_process (def (fun _ => RSeq [VStr "x"; VStr "y"]))));
     ("is_active", PyFunction (filter_by (def (fun a => RBool (item_flag a "active")))))].

Definition Visits : CalcClass :=
  (CalculatorMeta_new 1 "Visits" [CalcBase Calculator_class] Visits_attrs).1.

(** class Sub(Visits): overrides [owner] without a tag, adds [extra]. *)
Definition Sub_attrs : gmap string pyobj :=
  list_to_map
    [("owner", PyFunction (def (fun _ => RSeq [])));
     ("extra", PyFunction (date_emitter (def (fun _ => RSeq [VInt 7]))));
     ("offsets", PyDict {[ "extra" := (-3, 2)%Z ]})].

Definition Sub : CalcClass :=
  (CalculatorMeta_new 2 "Sub" [CalcBase Visits; PlainBase ∅] Sub_attrs).1.

Definition active_item : SourceDoc :=
  {| get_id := "abc";
     item_fields := list_to_map [("active", VInt 1); ("date", VInt 20); ("owner", VStr "o");
                                 ("domain", VStr "test")] |}.

Definition inactive_item : SourceDoc :=
  {| get_id := "abc";
     item_fields := list_to_map [("active", VInt 0); ("date", VInt 20); ("owner", VStr "o");
                                 ("domain", VStr "test")] |}.

Definition visits_calc : Calculator :=
  {| klass := Visits;
     inst_dict := list_to_map [("window", PyTimedelta 30); ("offsets", PyDict ∅)] |}.

Definition Indicators : IndicatorClass :=
  {| ind_name := "MyIndicators"; _doc_type := "MyIndicators"; app_label := "fluff";
     _calculators := {[ "C" := visits_calc ]};
     default_group_by := ["domain"] |}.

Definition doc_with (st : gmap string (list value)) : IndicatorDocument :=
  {| _id := "MyIndicators-abc"; id := Some "abc";
     state := {[ "C" := st ]};
     fields := {[ "domain" := VStr "test" ]};
     group_by := ["domain"] |}.

(** A raw change and the pillow that decodes it. *)
Definition raw_change : gmap string value :=
  list_to_map [("_id", VStr "abc"); ("active", VInt 1); ("date", VInt 20);
               ("owner", VStr "o"); ("domain", VStr "test")].

Definition pillow : FluffPillow :=
  {| document_class_wrap :=
       fun d => match d !! "_id" with
                | Some (VStr i) => Ok {| get_id := i; item_fields := d |}
                | _ => Raise TypeError
                end;
     indicator_class := Indicators |}.

Definition visits_result : FluffResult :=
  {| indicator_doc := Indicators; calc_name := "C"; key := [VStr "test"] |}.

(** Sub(window=timedelta(30)) *)
Definition sub_calc : Calculator :=
  {| klass := Sub;
     inst_dict := list_to_map [("window", PyTimedelta 30);
                               ("offsets", PyDict {[ "extra" := (-3, 2)%Z ]})] |}.
End Sample.

(** ** Specification vocabulary *)

(** [sub] was obtained from [sup] by a chain of class statements, each one
    listing the previous class among its bases. *)
Inductive derives (sup : CalcClass) : CalcClass -> Prop :=
| derives_refl : derives sup sup
| derives_step p n name bases attrs :
    derives sup p ->
    CalcBase p ∈ bases ->
    derives sup (CalculatorMeta_new n name bases attrs).1.

(** The window an instance ends up with: the constructor argument unless it
    is [None], else the class attribute. *)
Definition effective_window (cls : CalcClass) (window : pyobj) : option pyobj :=
  match window with
  | PyNone => cls_dict cls !! "window"
  | _ => Some window
  end.

(** Every declared emitter name is bound to a function carrying an emitter
    tag. *)
Definition emitters_resolve (self : Calculator) : bool :=
  forallb (fun slug =>
             match getattr self slug with
             | Ok (PyFunction m) => bool_decide (is_Some (_fluff_emitter m))
             | _ => false
             end)
          (elements (_fluff_emitters (klass self))).

(** [filter] and every declared filter name are bound to functions. *)
Definition filters_resolve (self : Calculator) : bool :=
  forallb (fun slug =>
             match getattr self slug with
             | Ok (PyFunction _) => true
             | _ => false
             end)
          ("filter" :: elements (_fluff_filters (klass self))).

(** The predicate bound to [slug] is false on [item]. *)
Definition filter_rejects (self : Calculator) (slug : string) (item : SourceDoc) : Prop :=
  exists m, getattr self slug = Ok (PyFunction m) /\
            truthy_ret (call m (ArgItem item)) = false.

(** [slug] is a DATE or NULL emitter of [self]. *)
Definition stored_emitter (self : Calculator) (slug : string) : bool :=
  match getattr self slug with
  | Ok (PyFunction m) =>
      match _fluff_emitter m with
      | Some tag => is_stored_type tag
      | None => false
      end
  | _ => false
  end.

(** Every emitter name stored in the document is bound, in the calculator of
    its slug, to a function carrying an emitter tag. *)
Definition state_resolves (cls : IndicatorClass) (self : IndicatorDocument) : bool :=
  forallb (fun '(calc_name, calc) =>
             forallb (fun emitter_name =>
                        match getattr calc emitter_name with
                        | Ok (PyFunction m) => bool_decide (is_Some (_fluff_emitter m))
                        | _ => false
                        end)
                     (dict_keys (doc_calc self calc_name)))
          (map_to_list (_calculators cls)).

(** The document carries a value for each of its [group_by] names. *)
Definition group_fields_present (self : IndicatorDocument) : bool :=
  forallb (fun attr => bool_decide (is_Some (fields self !! attr))) (group_by self).

(** The instance [__init__] starts from: [self.window] is set only when the
    argument is not [None]. *)
Definition init_self (cls : CalcClass) (window : pyobj) : Calculator :=
  match window with
  | PyNone => {| klass := cls; inst_dict := ∅ |}
  | _ => setattr {| klass := cls; inst_dict := ∅ |} "window" window
  end.

(** The emitter names of calculator [c] that [diff] records as changed
    against [prev], if any. *)
Definition changed_names (self prev : IndicatorDocument) (c : string) : option names :=
  match state prev !! c with
  | Some right_ =>
      match _shallow_dict_diff (doc_calc self c) right_ with
      | Some ns => if names_truthy ns then Some ns else None
      | None => None
      end
  | None => None
  end.

(** The emitter names of a calculator's state with a non-empty sequence, in
    [items()] order. *)
Definition nonempty_names (m : gmap string (list value)) : list string :=
  (filter (fun kv => values_truthy kv.2 = true) (map_to_list m)).*1.

(** What [setdefault(calc_name, [])] followed by appending the names [l], one
    after the other, leaves under [calc_name]. *)
Definition extend_names (o : option names) (l : list string) : option names :=
  match l with
  | [] => o
  | _ =>
      Some (match o with
            | None => NamesList l
            | Some (NamesList old) => NamesList (old ++ l)
            | Some (NamesSet s) => NamesSet (list_to_set l ∪ s)
            end)
  end.

(** The exceptions recomputing a document can end in: a missing attribute
    or field, or a value of the wrong kind. *)
Definition recompute_failure (e : exn) : Prop := e = AttributeError \/ e = TypeError.

(** ** Generic lemmas *)

Lemma foldl_union_acc {A} (f : A -> gset string) (ps : list A) (acc : gset string) :
  acc ⊆ foldl (fun acc p => acc ∪ f p) acc ps.
Proof.
  revert acc. induction ps as [|p ps IH]; intros acc; simpl; [done|].
  etrans; [|apply IH]. set_solver.
Qed.

Lemma foldl_union_elem {A} (f : A -> gset string) (ps : list A) (acc : gset string) p :
  p ∈ ps -> f p ⊆ foldl (fun acc p => acc ∪ f p) acc ps.
Proof.
  revert acc. induction ps as [|q ps IH]; intros acc Hin; simpl.
  - by apply elem_of_nil in Hin.
  - apply elem_of_cons in Hin as [->|Hin].
    + etrans; [|apply foldl_union_acc]. set_solver.
    + by apply IH.
Qed.

Lemma parents_of_elem p bases : CalcBase p ∈ bases -> p ∈ parents_of bases.
Proof.
  intros Hin. unfold parents_of. apply list_elem_of_omap.
  exists (CalcBase p). done.
Qed.

Lemma new_class_parent n name bases attrs p :
  CalcBase p ∈ bases ->
  _fluff_emitters p ⊆ _fluff_emitters (CalculatorMeta_new n name bases attrs).1 /\
  _fluff_filters p ⊆ _fluff_filters (CalculatorMeta_new n name bases attrs).1.
Proof.
  intros Hin%parents_of_elem. simpl. split.
  - by apply (foldl_union_elem _fluff_emitters).
  - by apply (foldl_union_elem _fluff_filters).
Qed.

Lemma foldl_remove (l : list string) (s : gset string) :
  foldl (fun acc e => acc ∖ {[e]}) s l = s ∖ list_to_set l.
Proof.
  revert s. induction l as [|x l IH]; intros s; simpl.
  - set_solver.
  - rewrite IH. set_solver.
Qed.

Lemma remove_covered (keys enc : gset string) :
  foldl (fun acc e => acc ∖ {[e]}) enc (elements (keys ∩ enc)) = enc ∖ keys.
Proof.
  rewrite foldl_remove, list_to_set_elements_L. set_solver.
Qed.

Lemma bind_Ok {A B} (r : result A) (k : A -> result B) b :
  bind r k = Ok b -> exists a, r = Ok a /\ k a = Ok b.
Proof. destruct r; simpl; [eauto | discriminate]. Qed.

(** ** Attribute lookup *)

Lemma getattr_setattr_eq self name o : getattr (setattr self name o) name = Ok o.
Proof. unfold getattr, setattr; simpl. by rewrite lookup_insert_eq. Qed.

Lemma getattr_setattr_ne self name name' o :
  name ≠ name' -> getattr (setattr self name o) name' = getattr self name'.
Proof. intros Hne. unfold getattr, setattr; simpl. by rewrite lookup_insert_ne. Qed.

Lemma getattr_fresh cls name :
  getattr {| klass := cls; inst_dict := ∅ |} name =
  match cls_dict cls !! name with Some o => Ok o | None => Raise AttributeError end.
Proof. unfold getattr; simpl. by rewrite lookup_empty. Qed.

Lemma init_self_offsets cls window :
  getattr (init_self cls window) "offsets" =
  match cls_dict cls !! "offsets" with Some o => Ok o | None => Raise AttributeError end.
Proof.
  destruct window; simpl; rewrite ?getattr_setattr_ne by done; apply getattr_fresh.
Qed.

Lemma init_self_window cls window :
  getattr (init_self cls window) "window" =
  match effective_window cls window with Some o => Ok o | None => Raise AttributeError end.
Proof.
  destruct window; simpl; rewrite ?getattr_setattr_eq, ?getattr_fresh; done.
Qed.

(** [__init__] step by step, with the two loops replaced by what they
    compute. *)
Lemma Calculator_init_unfold cls window :
  Calculator_init cls window =
  let* offsets := getattr (init_self cls window) "offsets" in
  let self := setattr (init_self cls window) "offsets"
                      (if truthy offsets then offsets else PyDict ∅) in
  let* keys := keys_of (if truthy offsets then offsets else PyDict ∅) in
  let* w := getattr (init_self cls window) "window" in
  if negb (isinstance_timedelta w) then
    Raise (NotImplementedError WindowMustBeTimedelta)
  else if negb (bool_decide ((if truthy w then ∅ else _fluff_emitters cls ∖ keys) = ∅)) then
    Raise (NotImplementedError
             (EmittersNotCovered (if truthy w then ∅ else _fluff_emitters cls ∖ keys)))
  else Ok self.
Proof.
  unfold Calculator_init. fold (init_self cls window).
  destruct (getattr (init_self cls window) "offsets") as [offsets|e]; simpl; [|done].
  rewrite getattr_setattr_eq; simpl.
  destruct (keys_of _) as [keys|e]; simpl; [|done].
  rewrite getattr_setattr_ne by done.
  destruct (getattr (init_self cls window) "window") as [w|e]; simpl; [|done].
  assert (klass (init_self cls window) = cls) as -> by (by destruct window).
  by rewrite remove_covered.
Qed.

(** A constructed calculator has a dict of offsets and a timedelta window. *)
Lemma Calculator_init_Ok cls window self :
  Calculator_init cls window = Ok self ->
  exists o d, getattr self "offsets" = Ok (PyDict o) /\
              getattr self "window" = Ok (PyTimedelta d) /\
              klass self = cls.
Proof.
  rewrite Calculator_init_unfold.
  intros (offsets & Hoffs & H)%bind_Ok. simpl in H.
  apply bind_Ok in H as (keys & Hkeys & H).
  apply bind_Ok in H as (w & Hw & H).
  destruct w as [| d | | |]; simpl in H; try discriminate.
  destruct (negb _) in H; [discriminate|]. injection H as <-.
  destruct (if truthy offsets then offsets else PyDict ∅) as [| | o | |] eqn:Ho;
    simpl in Hkeys; try discriminate.
  exists o, d. rewrite getattr_setattr_eq, getattr_setattr_ne by done.
  split; [done|]. split; [done|]. by destruct window.
Qed.

(** ** The emitter/filter registry *)

(** C3: along any chain of derivation, the merged emitter set of the subtype
    contains the emitter set of the supertype, and likewise for the filter
    set, whatever the class bodies in between (re)define. *)
Theorem derived_sets_superset sup sub :
  derives sup sub ->
  _fluff_emitters sup ⊆ _fluff_emitters sub /\
  _fluff_filters sup ⊆ _fluff_filters sub.
Proof.
  induction 1 as [|p n name bases attrs _ [IHe IHf] Hin]; [done|].
  destruct (new_class_parent n name bases attrs p Hin) as [He Hf].
  split; etrans; eauto.
Qed.

Lemma derived_sets_superset_witness :
  _fluff_emitters Sample.Visits ⊆ _fluff_emitters Sample.Sub /\
  _fluff_filters Sample.Visits ⊆ _fluff_filters Sample.Sub.
Proof.
  apply (derived_sets_superset Sample.Visits Sample.Sub).
  unfold Sample.Sub.
  apply (derives_step _ Sample.Visits); [apply derives_refl|constructor].
Defined.

(** ** Calculator construction *)

Lemma Calculator_init_configured cls window co w :
  cls_dict cls !! "offsets" = Some co ->
  effective_window cls window = Some w ->
  (co = PyNone \/ exists o, co = PyDict o) ->
  let offsets := match co with PyDict o => o | _ => ∅ end in
  let uncovered := if truthy w then ∅ else _fluff_emitters cls ∖ dom offsets in
  Calculator_init cls window =
  if negb (isinstance_timedelta w) then
    Raise (NotImplementedError WindowMustBeTimedelta)
  else if negb (bool_decide (uncovered = ∅)) then
    Raise (NotImplementedError (EmittersNotCovered uncovered))
  else Ok (setattr (init_self cls window) "offsets" (PyDict offsets)).
Proof.
  intros Hco Hw Hshape offsets uncovered.
  rewrite Calculator_init_unfold, init_self_offsets, init_self_window, Hco, Hw.
  simpl.
  assert ((if truthy co then co else PyDict ∅) = PyDict offsets) as ->.
  { subst offsets. destruct Hshape as [->|[o ->]]; simpl; [done|].
    case_bool_decide; simpl; [by subst|done]. }
  done.
Qed.

(** C2, counterexample: with [window=None], construction fails although the
    only emitter is covered by [offsets]. *)
Lemma offsets_alone_rejected :
  let cls := (CalculatorMeta_new 1 "OnlyOffsets" [CalcBase Calculator_class]
                (list_to_map
                   [("e", PyFunction (date_emitter (def (fun _ => RSeq []))));
                    ("offsets", PyDict {[ "e" := (-7, 0)%Z ]})])).1 in
  _fluff_emitters cls = {[ "e" ]} /\
  cls_dict cls !! "offsets" = Some (PyDict {[ "e" := (-7, 0)%Z ]}) /\
  cls_dict cls !! "window" = Some PyNone /\
  Calculator_init cls PyNone = Raise (NotImplementedError WindowMustBeTimedelta).
Proof. vm_compute. done. Qed.

(** C2, as the code has it: construction succeeds exactly when the window is
    a timedelta and every declared emitter is covered, a non-zero window
    covering all of them and [offsets] covering the ones it lists.  A window
    that is not a timedelta ([None] included) fails with the window error
    whatever [offsets] says; a zero window with uncovered emitters fails
    with the error that lists exactly the uncovered names. *)
Theorem Calculator_init_succeeds_iff cls window co w :
  cls_dict cls !! "offsets" = Some co ->
  effective_window cls window = Some w ->
  (co = PyNone \/ exists o, co = PyDict o) ->
  let offsets := match co with PyDict o => o | _ => ∅ end in
  ((exists self, Calculator_init cls window = Ok self) <->
   (exists d, w = PyTimedelta d /\
              (d ≠ 0%Z \/ _fluff_emitters cls ⊆ dom offsets))) /\
  (isinstance_timedelta w = false ->
   Calculator_init cls window = Raise (NotImplementedError WindowMustBeTimedelta)) /\
  (w = PyTimedelta 0 -> ¬ _fluff_emitters cls ⊆ dom offsets ->
   Calculator_init cls window =
   Raise (NotImplementedError (EmittersNotCovered (_fluff_emitters cls ∖ dom offsets)))).
Proof.
  intros Hco Hw Hshape offsets.
  rewrite (Calculator_init_configured cls window co w Hco Hw Hshape).
  fold offsets. split; [|split].
  - split.
    + intros [self H].
      destruct w as [| d | | |]; simpl in H; try discriminate.
      exists d. split; [done|].
      destruct (Z.eqb_spec d 0) as [->|Hd]; simpl in H; [|by left].
      right. case_bool_decide as Hu; simpl in H; [|discriminate]. set_solver.
    + intros (d & -> & Hcov). simpl.
      destruct (Z.eqb_spec d 0) as [->|Hd]; simpl.
      * destruct Hcov as [?|Hsub]; [done|].
        rewrite bool_decide_eq_true_2 by set_solver. simpl. eauto.
      * rewrite bool_decide_eq_true_2 by done. simpl. eauto.
  - intros ->. done.
  - intros -> Hnot. simpl.
    rewrite bool_decide_eq_false_2; [done|].
    intros Heq. apply Hnot. intros x Hx.
    destruct (decide (x ∈ dom offsets)) as [|Hout]; [done|].
    assert (x ∈ _fluff_emitters cls ∖ dom offsets) as Hin
      by (apply elem_of_difference; done).
    rewrite Heq in Hin. by apply not_elem_of_empty in Hin.
Qed.

Lemma Calculator_init_succeeds_iff_witness :
  ((exists self, Calculator_init Sample.Sub (PyTimedelta 0) = Ok self) <->
   (exists d, PyTimedelta 0 = PyTimedelta d /\
              (d ≠ 0%Z \/ _fluff_emitters Sample.Sub ⊆ dom ({[ "extra" := (-3, 2)%Z ]} : gmap string (Z * Z))))) /\
  (isinstance_timedelta (PyTimedelta 0) = false ->
   Calculator_init Sample.Sub (PyTimedelta 0) =
   Raise (NotImplementedError WindowMustBeTimedelta)) /\
  (PyTimedelta 0 = PyTimedelta 0 ->
   ¬ _fluff_emitters Sample.Sub ⊆ dom ({[ "extra" := (-3, 2)%Z ]} : gmap string (Z * Z)) ->
   Calculator_init Sample.Sub (PyTimedelta 0) =
   Raise (NotImplementedError
            (EmittersNotCovered
               (_fluff_emitters Sample.Sub ∖ dom ({[ "extra" := (-3, 2)%Z ]} : gmap string (Z * Z)))))).
Proof.
  apply (Calculator_init_succeeds_iff Sample.Sub (PyTimedelta 0)
           (PyDict {[ "extra" := (-3, 2)%Z ]}) (PyTimedelta 0)).
  - vm_compute. reflexivity.
  - reflexivity.
  - right. eexists. reflexivity.
Defined.

(** C7: for a constructed calculator, [get_window] answers with the explicit
    offset pair added to the reference instant when the emitter has one, and
    with the trailing window otherwise. *)
Theorem get_window_spec cls window self :
  Calculator_init cls window = Ok self ->
  exists (offsets : gmap string (Z * Z)) (w : Z),
    getattr self "offsets" = Ok (PyDict offsets) /\
    getattr self "window" = Ok (PyTimedelta w) /\
    forall (now : Z) (emitter : string),
      get_window self now emitter =
      Ok (match offsets !! emitter with
          | Some (start, end_) => (now + start, now + end_)%Z
          | None => (now - w, now)%Z
          end).
Proof.
  intros (offsets & w & Ho & Hw & _)%Calculator_init_Ok.
  exists offsets, w. split; [done|]. split; [done|].
  intros now emitter. unfold get_window. rewrite Ho. simpl.
  destruct (offsets !! emitter) as [[start end_]|]; [done|].
  rewrite Hw. done.
Qed.

Lemma get_window_spec_witness :
  exists (offsets : gmap string (Z * Z)) (w : Z),
    getattr Sample.visits_calc "offsets" = Ok (PyDict offsets) /\
    getattr Sample.visits_calc "window" = Ok (PyTimedelta w) /\
    forall (now : Z) (emitter : string),
      get_window Sample.visits_calc now emitter =
      Ok (match offsets !! emitter with
          | Some (start, end_) => (now + start, now + end_)%Z
          | None => (now - w, now)%Z
          end).
Proof.
  apply (get_window_spec Sample.Visits (PyTimedelta 30) Sample.visits_calc).
  vm_compute. reflexivity.
Defined.

(** ** Calculator.calculate *)

Lemma forallb_elem {A} (f : A -> bool) (l : list A) x :
  forallb f l = true -> x ∈ l -> f x = true.
Proof.
  intros Hall Hin. apply list_elem_of_In in Hin.
  by apply (proj1 (forallb_forall f l) Hall).
Qed.

Lemma emitters_resolve_elem self slug :
  emitters_resolve self = true ->
  slug ∈ _fluff_emitters (klass self) ->
  exists m tag, getattr self slug = Ok (PyFunction m) /\ _fluff_emitter m = Some tag.
Proof.
  intros Hall Hin. apply elem_of_elements in Hin.
  pose proof (forallb_elem _ _ _ Hall Hin) as H. simpl in H.
  destruct (getattr self slug) as [[| | | m |]|]; try discriminate.
  apply bool_decide_eq_true in H as [tag Htag]. eauto.
Qed.

Lemma filters_resolve_elem self slug :
  filters_resolve self = true ->
  slug = "filter" \/ slug ∈ _fluff_filters (klass self) ->
  exists m, getattr self slug = Ok (PyFunction m).
Proof.
  intros Hall Hin.
  assert (slug ∈ "filter" :: elements (_fluff_filters (klass self))) as Hin'.
  { destruct Hin as [->|Hin]; [left|right]. by apply elem_of_elements. }
  pose proof (forallb_elem _ _ _ Hall Hin') as H. simpl in H.
  destruct (getattr self slug) as [[| | | m |]|]; try discriminate. eauto.
Qed.

(** A rejecting predicate anywhere in the list makes [all(...)] false. *)
Lemma all_filters_rejects self item slugs :
  (forall slug, slug ∈ slugs -> exists m, getattr self slug = Ok (PyFunction m)) ->
  (exists slug, slug ∈ slugs /\ filter_rejects self slug item) ->
  all_filters self item slugs = Ok false.
Proof.
  induction slugs as [|s rest IH]; intros Hres (slug & Hin & Hrej).
  - by apply elem_of_nil in Hin.
  - simpl. unfold call_method.
    destruct (Hres s) as [m Hm]; [left|]. rewrite Hm. simpl.
    destruct (truthy_ret (call m (ArgItem item))) eqn:Ht; [|done].
    apply IH.
    + intros s' Hs'. apply Hres. by right.
    + exists slug. split; [|done].
      apply elem_of_cons in Hin as [->|Hin]; [|done].
      destruct Hrej as (m' & Hm' & Hf). rewrite Hm in Hm'.
      injection Hm' as <-. congruence.
Qed.

(** The emitter loop when the item did not pass. *)
Lemma calculate_loop_rejected self item slugs acc :
  (forall slug, slug ∈ slugs ->
     exists m tag, getattr self slug = Ok (PyFunction m) /\ _fluff_emitter m = Some tag) ->
  exists values,
    for_each (calculate_step self item false) slugs acc = Ok values /\
    forall slug,
      values !! slug =
      if bool_decide (slug ∈ slugs) && stored_emitter self slug
      then Some [] else acc !! slug.
Proof.
  revert acc. induction slugs as [|s rest IH]; intros acc Hres.
  - exists acc. split; [done|]. intros slug.
    rewrite bool_decide_eq_false_2; [done|]. apply not_elem_of_nil.
  - destruct (Hres s) as (m & tag & Hm & Htag); [left|].
    assert (stored_emitter self s = is_stored_type tag) as Hs
      by (unfold stored_emitter; by rewrite Hm, Htag).
    simpl. unfold calculate_step at 1. rewrite Hm. simpl. rewrite Htag. simpl.
    destruct (IH (if is_stored_type tag then <[s := []]> acc else acc))
      as (values & Hloop & Hval).
    { intros s' Hs'. apply Hres. by right. }
    exists values. split.
    { destruct (is_stored_type tag); simpl; exact Hloop. }
    intros slug. rewrite Hval.
    destruct (decide (slug = s)) as [->|Hne].
    + rewrite (bool_decide_eq_true_2 (s ∈ s :: rest)) by left.
      rewrite Hs. destruct (is_stored_type tag); simpl.
      * rewrite andb_true_r. rewrite lookup_insert_eq. by case_bool_decide.
      * by rewrite andb_false_r.
    + assert (bool_decide (slug ∈ s :: rest) = bool_decide (slug ∈ rest)) as ->.
      { apply bool_decide_ext. rewrite elem_of_cons. naive_solver. }
      destruct (bool_decide (slug ∈ rest) && stored_emitter self slug); [done|].
      destruct (is_stored_type tag); [by rewrite lookup_insert_ne|done].
Qed.

(** With a rejected item nothing but a missing attribute can stop the
    emitter loop: the emitter methods are not called. *)
Lemma calculate_step_rejected_raise self item acc slug e :
  calculate_step self item false acc slug = Raise e -> e = AttributeError.
Proof.
  unfold calculate_step, getattr.
  destruct (inst_dict self !! slug) as [o|]; simpl.
  - destruct o as [| | | m |]; simpl; try (by intros [= <-]).
    destruct (_fluff_emitter m) as [tag|]; simpl; [|by intros [= <-]].
    by destruct (is_stored_type tag).
  - destruct (cls_dict (klass self) !! slug) as [o|]; simpl; [|by intros [= <-]].
    destruct o as [| | | m |]; simpl; try (by intros [= <-]).
    destruct (_fluff_emitter m) as [tag|]; simpl; [|by intros [= <-]].
    by destruct (is_stored_type tag).
Qed.

(** The emitter loop for a rejected item when some declared name is not
    bound to a tagged function. *)
Lemma calculate_loop_unresolved self item slugs acc :
  forallb (fun slug =>
             match getattr self slug with
             | Ok (PyFunction m) => bool_decide (is_Some (_fluff_emitter m))
             | _ => false
             end) slugs = false ->
  for_each (calculate_step self item false) slugs acc = Raise AttributeError.
Proof.
  revert acc. induction slugs as [|s rest IH]; intros acc Hall; simpl in *; [done|].
  destruct (calculate_step self item false acc s) as [acc'|e] eqn:Hstep; simpl.
  - apply IH. apply andb_false_iff in Hall as [Hs|Hrest]; [|done]. exfalso.
    unfold calculate_step in Hstep.
    destruct (getattr self s) as [o|e]; simpl in Hstep; [|done].
    destruct o as [| | | m |]; simpl in Hstep; try done.
    destruct (_fluff_emitter m) as [tag|]; simpl in Hstep; [|done].
    rewrite bool_decide_eq_true_2 in Hs by eauto. done.
  - f_equal. by eapply calculate_step_rejected_raise.
Qed.

(** C4, counterexample: [Sub] overrides the inherited emitter [owner]
    without a decorator; the name stays in the emitter set, an instance
    constructs, and [calculate] on an item that fails the filter
    [is_active] ends in [AttributeError] instead of returning empty
    sequences. *)
Lemma untagged_override_raises :
  Calculator_init Sample.Sub (PyTimedelta 30) = Ok Sample.sub_calc /\
  "is_active" ∈ _fluff_filters Sample.Sub /\
  filter_rejects Sample.sub_calc "is_active" Sample.inactive_item /\
  "owner" ∈ _fluff_emitters Sample.Sub /\
  Calculator_calculate Sample.sub_calc Sample.inactive_item = Raise AttributeError.
Proof.
  split; [vm_compute; reflexivity|].
  split; [apply (bool_decide_unpack _); vm_compute; exact I|].
  split; [eexists; split; reflexivity|].
  split; [apply (bool_decide_unpack _); vm_compute; exact I|].
  vm_compute. reflexivity.
Qed.

(** C4, as the code has it: for a calculator whose [filter] and declared
    filter names are bound to functions, and an item that fails [filter] or
    one of the tagged filter predicates: when every declared emitter name is
    bound to a tagged function, [calculate] returns, and it maps every DATE
    and NULL emitter to the empty sequence, without consulting the emitter
    methods; when some declared emitter name is not (an inherited emitter
    overridden without a decorator), [calculate] ends in [AttributeError]. *)
Theorem calculate_filtered_out self item :
  filters_resolve self = true ->
  (filter_rejects self "filter" item \/
   exists slug, slug ∈ _fluff_filters (klass self) /\ filter_rejects self slug item) ->
  (emitters_resolve self = true ->
   exists values,
     Calculator_calculate self item = Ok values /\
     (forall slug m tag,
        slug ∈ _fluff_emitters (klass self) ->
        getattr self slug = Ok (PyFunction m) ->
        _fluff_emitter m = Some tag ->
        tag = "date" \/ tag = "null" ->
        values !! slug = Some []) /\
     (forall slug vs, values !! slug = Some vs -> vs = [])) /\
  (emitters_resolve self = false ->
   Calculator_calculate self item = Raise AttributeError).
Proof.
  intros Hfi Hrej.
  destruct (filters_resolve_elem self "filter" Hfi) as [m0 Hm0]; [by left|].
  assert ((if truthy_ret (call m0 (ArgItem item))
           then all_filters self item (elements (_fluff_filters (klass self)))
           else Ok false) = Ok false) as Hpasses.
  { destruct (truthy_ret (call m0 (ArgItem item))) eqn:Ht; [|done].
    apply all_filters_rejects.
    + intros slug Hin%elem_of_elements. apply filters_resolve_elem; auto.
    + destruct Hrej as [(m & Hm & Hf)|(slug & Hin & Hr)].
      * rewrite Hm0 in Hm. injection Hm as <-. congruence.
      * exists slug. split; [by apply elem_of_elements|done]. }
  assert (Calculator_calculate self item =
          for_each (calculate_step self item false)
                   (elements (_fluff_emitters (klass self))) ∅) as Hcalc.
  { unfold Calculator_calculate, call_method. rewrite Hm0. simpl. by rewrite Hpasses. }
  split.
  - intros Hem.
    destruct (calculate_loop_rejected self item
                (elements (_fluff_emitters (klass self))) ∅) as (values & Hloop & Hval).
    { intros slug Hin%elem_of_elements. by apply emitters_resolve_elem. }
    exists values. split; [by rewrite Hcalc|]. split.
    + intros slug m tag Hin Hm Htag Hkind. rewrite Hval.
      rewrite bool_decide_eq_true_2 by (by apply elem_of_elements).
      unfold stored_emitter. rewrite Hm, Htag.
      by destruct Hkind as [->| ->].
    + intros slug vs. rewrite Hval.
      destruct (_ && _); [|by rewrite lookup_empty]. congruence.
  - intros Hem. rewrite Hcalc. by apply calculate_loop_unresolved.
Qed.

Lemma calculate_filtered_out_witness :
  (exists values,
     Calculator_calculate Sample.visits_calc Sample.inactive_item = Ok values /\
     (forall slug m tag,
        slug ∈ _fluff_emitters (klass Sample.visits_calc) ->
        getattr Sample.visits_calc slug = Ok (PyFunction m) ->
        _fluff_emitter m = Some tag ->
        tag = "date" \/ tag = "null" ->
        values !! slug = Some []) /\
     (forall slug vs, values !! slug = Some vs -> vs = [])) /\
  Calculator_calculate Sample.sub_calc Sample.inactive_item = Raise AttributeError.
Proof.
  split.
  - apply (calculate_filtered_out Sample.visits_calc Sample.inactive_item).
    + vm_compute. reflexivity.
    + right. exists "is_active". split.
      * apply (bool_decide_unpack _). vm_compute. exact I.
      * eexists. split; reflexivity.
    + vm_compute. reflexivity.
  - apply (calculate_filtered_out Sample.sub_calc Sample.inactive_item).
    + vm_compute. reflexivity.
    + right. exists "is_active". split.
      * apply (bool_decide_unpack _). vm_compute. exact I.
      * eexists. split; reflexivity.
    + vm_compute. reflexivity.
Defined.

(** ** Loops and comprehensions *)

Lemma for_each_fixed {A S} (step : S -> A -> result S) (xs : list A) (acc : S) :
  (forall x, x ∈ xs -> step acc x = Ok acc) ->
  for_each step xs acc = Ok acc.
Proof.
  induction xs as [|x xs IH]; intros Hstep; simpl; [done|].
  rewrite Hstep by left. simpl. apply IH. intros y Hy. apply Hstep. by right.
Qed.

Lemma for_each_raise {A S} (step : S -> A -> result S) (xs : list A) (acc : S) e e0 :
  (forall acc x e', x ∈ xs -> step acc x = Raise e' -> e' = e0) ->
  for_each step xs acc = Raise e -> e = e0.
Proof.
  revert acc. induction xs as [|x xs IH]; intros acc Hstep; simpl; [done|].
  destruct (step acc x) as [acc'|e'] eqn:Hx; simpl.
  - apply IH. intros acc0 y e1 Hy. apply Hstep. by right.
  - intros [= <-]. eapply Hstep; [left|exact Hx].
Qed.

Lemma comprehension_total {A B} (f : A -> result B) (xs : list A) :
  (forall x, x ∈ xs -> exists y, f x = Ok y) ->
  exists ys, comprehension f xs = Ok ys.
Proof.
  induction xs as [|x xs IH]; intros Hf; simpl; [eauto|].
  destruct (Hf x) as [y ->]; [left|]. simpl.
  destruct IH as [ys ->]; [intros z Hz; apply Hf; by right|]. simpl. eauto.
Qed.

Lemma comprehension_elem {A B} (f : A -> result B) (xs : list A) ys x :
  comprehension f xs = Ok ys -> x ∈ xs -> exists y, f x = Ok y /\ y ∈ ys.
Proof.
  revert ys. induction xs as [|x0 xs IH]; intros ys Hc Hin.
  - by apply elem_of_nil in Hin.
  - simpl in Hc. apply bind_Ok in Hc as (y0 & Hy0 & Hc).
    apply bind_Ok in Hc as (ys0 & Hys0 & Hc). injection Hc as <-.
    apply elem_of_cons in Hin as [->|Hin].
    + exists y0. split; [done|left].
    + destruct (IH ys0 Hys0 Hin) as (y & Hy & Hyin). exists y. split; [done|by right].
Qed.

Lemma comprehension_elem_inv {A B} (f : A -> result B) (xs : list A) ys y :
  comprehension f xs = Ok ys -> y ∈ ys -> exists x, x ∈ xs /\ f x = Ok y.
Proof.
  revert ys. induction xs as [|x0 xs IH]; intros ys Hc Hin; simpl in Hc.
  - injection Hc as <-. by apply elem_of_nil in Hin.
  - apply bind_Ok in Hc as (y0 & Hy0 & Hc).
    apply bind_Ok in Hc as (ys0 & Hys0 & Hc). injection Hc as <-.
    apply elem_of_cons in Hin as [->|Hin].
    + exists x0. split; [left|done].
    + destruct (IH ys0 Hys0 Hin) as (x & Hx & Hfx). exists x. split; [by right|done].
Qed.

(** If every element either evaluates or raises [e0], and some element
    raises, the comprehension raises [e0]. *)
Lemma comprehension_raises {A B} (f : A -> result B) (xs : list A) e0 :
  (forall x, x ∈ xs -> (exists y, f x = Ok y) \/ f x = Raise e0) ->
  (exists x, x ∈ xs /\ f x = Raise e0) ->
  comprehension f xs = Raise e0.
Proof.
  induction xs as [|x0 xs IH]; intros Hall (x & Hin & Hx).
  - by apply elem_of_nil in Hin.
  - simpl. destruct (Hall x0) as [[y0 Hy0]| ->]; [left| |done].
    rewrite Hy0. simpl.
    rewrite IH; [done| |].
    + intros z Hz. apply Hall. by right.
    + exists x. split; [|done].
      apply elem_of_cons in Hin as [->|Hin]; [congruence|done].
Qed.

Lemma comprehension_ok_or {A B} (f : A -> result B) (xs : list A) e0 :
  (forall x, x ∈ xs -> (exists y, f x = Ok y) \/ f x = Raise e0) ->
  (exists ys, comprehension f xs = Ok ys) \/ comprehension f xs = Raise e0.
Proof.
  induction xs as [|x0 xs IH]; intros Hall; simpl; [eauto|].
  destruct (Hall x0) as [[y0 ->]| ->]; [left| |by right]. simpl.
  destruct IH as [[ys ->]| ->]; [intros z Hz; apply Hall; by right| |by right].
  simpl. eauto.
Qed.

Lemma elem_of_concat {A} (x : A) (ls : list (list A)) :
  x ∈ concat ls <-> exists l, x ∈ l /\ l ∈ ls.
Proof.
  rewrite list_elem_of_In, in_concat. split.
  - intros (l & Hl & Hx). exists l. by rewrite !list_elem_of_In.
  - intros (l & Hx & Hl). exists l. by rewrite <- !list_elem_of_In.
Qed.

(** ** Dicts *)

Lemma elem_of_dict_keys {V} (d : gmap string V) k :
  k ∈ dict_keys d <-> is_Some (d !! k).
Proof.
  unfold dict_keys. rewrite list_elem_of_fmap. split.
  - intros ([k' v] & -> & Hin). apply elem_of_map_to_list in Hin. simpl. eauto.
  - intros [v Hv]. exists (k, v). split; [done|]. by apply elem_of_map_to_list.
Qed.

Lemma NoDup_dict_keys {V} (d : gmap string V) : NoDup (dict_keys d).
Proof. apply NoDup_fst_map_to_list. Qed.

Lemma dict_truthy_false {V} (d : gmap string V) : dict_truthy d = false <-> d = ∅.
Proof.
  unfold dict_truthy. rewrite negb_false_iff, bool_decide_eq_true. done.
Qed.

Lemma dict_truthy_lookup {V} (d : gmap string V) k v :
  d !! k = Some v -> dict_truthy d = true.
Proof.
  intros Hk. unfold dict_truthy. rewrite negb_true_iff, bool_decide_eq_false.
  intros ->. by rewrite lookup_empty in Hk.
Qed.

Lemma not_subseteq_elem (X Y : gset string) : ¬ X ⊆ Y -> exists e, e ∈ X /\ e ∉ Y.
Proof.
  intros Hn. destruct (decide (X ∖ Y = ∅)) as [He|Hne].
  - exfalso. apply Hn. intros x Hx.
    destruct (decide (x ∈ Y)) as [|Hout]; [done|].
    assert (x ∈ X ∖ Y) as Hin by (apply elem_of_difference; done).
    rewrite He in Hin. by apply not_elem_of_empty in Hin.
  - apply set_choose_L in Hne as [e He%elem_of_difference]. eauto.
Qed.

(** ** _shallow_dict_diff *)

Lemma names_truthy_spec ns : names_truthy ns = true <-> exists e, e ∈ names_iter ns.
Proof.
  destruct ns as [l|s]; simpl.
  - destruct l as [|x l]; split; try done.
    + intros [e He]. by apply elem_of_nil in He.
    + intros _. exists x. left.
  - rewrite negb_true_iff, bool_decide_eq_false. split.
    + intros Hne. apply set_choose_L in Hne as [e He]. exists e.
      by apply elem_of_elements.
    + intros [e He%elem_of_elements] ->. by apply not_elem_of_empty in He.
Qed.

(** The names reported are exactly those bound on at least one side whose
    two lookups differ. *)
Lemma shallow_dict_diff_names left right ns e :
  _shallow_dict_diff left right = Some ns ->
  e ∈ names_iter ns <->
  (is_Some (left !! e) \/ is_Some (right !! e)) /\ left !! e ≠ right !! e.
Proof.
  unfold _shallow_dict_diff.
  destruct (dict_truthy left) eqn:Hl, (dict_truthy right) eqn:Hr; simpl;
    intros [= <-]; simpl.
  - rewrite elem_of_elements, !elem_of_union, elem_of_filter, !elem_of_difference,
      !elem_of_intersection, !elem_of_dom.
    unfold is_Some. destruct (left !! e), (right !! e); naive_solver.
  - apply dict_truthy_false in Hr as ->. rewrite elem_of_dict_keys, lookup_empty.
    unfold is_Some. destruct (left !! e); naive_solver.
  - apply dict_truthy_false in Hl as ->. rewrite elem_of_dict_keys, lookup_empty.
    unfold is_Some. destruct (right !! e); naive_solver.
Qed.

Lemma shallow_dict_diff_same m :
  match _shallow_dict_diff m m with
  | Some ns => names_truthy ns = false
  | None => True
  end.
Proof.
  destruct (_shallow_dict_diff m m) as [ns|] eqn:Hd; [|done].
  destruct (names_truthy ns) eqn:Ht; [|done].
  apply names_truthy_spec in Ht as [e He].
  apply (shallow_dict_diff_names m m ns e Hd) in He as [_ Hne]. done.
Qed.

Lemma shallow_dict_diff_differ left right :
  dom left ≠ dom right ->
  exists ns e,
    _shallow_dict_diff left right = Some ns /\
    names_truthy ns = true /\
    e ∈ names_iter ns /\
    (left !! e = None \/ right !! e = None).
Proof.
  intros Hdom.
  assert (exists e, (is_Some (left !! e) /\ right !! e = None) \/
                    (left !! e = None /\ is_Some (right !! e))) as [e He].
  { destruct (decide (dom left ⊆ dom right)) as [Hsub|Hnsub].
    - destruct (decide (dom right ⊆ dom left)) as [Hsub'|Hnsub'].
      + exfalso. apply Hdom. set_solver.
      + apply not_subseteq_elem in Hnsub' as (e & Hin & Hout). exists e. right.
        split; [by apply not_elem_of_dom|by apply elem_of_dom].
    - apply not_subseteq_elem in Hnsub as (e & Hin & Hout). exists e. left.
      split; [by apply elem_of_dom|by apply not_elem_of_dom]. }
  destruct (_shallow_dict_diff left right) as [ns|] eqn:Hd.
  - assert (e ∈ names_iter ns) as Hin.
    { apply (shallow_dict_diff_names left right ns e Hd).
      destruct He as [[[v Hv] Hr]|[Hl [v Hv]]]; rewrite ?Hv, ?Hr, ?Hl; eauto. }
    exists ns, e. split; [done|]. split; [apply names_truthy_spec; eauto|].
    split; [done|]. naive_solver.
  - exfalso. unfold _shallow_dict_diff in Hd.
    destruct (dict_truthy left) eqn:Hl, (dict_truthy right) eqn:Hr;
      simpl in Hd; try discriminate.
    apply dict_truthy_false in Hl as ->. apply dict_truthy_false in Hr as ->.
    destruct He as [[[v Hv] _]|[_ [v Hv]]]; by rewrite lookup_empty in Hv.
Qed.

(** ** IndicatorDocument.diff *)

(** C6: diffing against a previous version whose per-calculator state is
    identical returns [None]. *)
Theorem diff_identical_state cls self prev :
  (forall calc_name, is_Some (_calculators cls !! calc_name) ->
     state prev !! calc_name = Some (doc_calc self calc_name)) ->
  IndicatorDocument_diff cls self (Some prev) = Ok None.
Proof.
  intros Hsame. unfold IndicatorDocument_diff.
  rewrite for_each_fixed; [done|].
  intros calc_name Hin%elem_of_dict_keys.
  unfold diff_keys_step, getitem. rewrite (Hsame calc_name Hin). simpl.
  pose proof (shallow_dict_diff_same (doc_calc self calc_name)) as H.
  destruct (_shallow_dict_diff _ _) as [ns|]; [|done]. by rewrite H.
Qed.

Lemma diff_identical_state_witness :
  IndicatorDocument_diff Sample.Indicators
    (Sample.doc_with {[ "e" := [VInt 1; VInt 2; VInt 3] ]})
    (Some (Sample.doc_with {[ "e" := [VInt 1; VInt 2; VInt 3] ]})) = Ok None.
Proof.
  apply (diff_identical_state Sample.Indicators).
  intros calc_name [c Hc]. unfold Sample.Indicators in Hc. simpl in Hc.
  apply lookup_singleton_Some in Hc as [<- _]. reflexivity.
Defined.

Lemma state_resolves_elem cls self c calc e :
  state_resolves cls self = true ->
  _calculators cls !! c = Some calc ->
  is_Some (doc_calc self c !! e) ->
  exists m tag, getattr calc e = Ok (PyFunction m) /\ _fluff_emitter m = Some tag.
Proof.
  intros Hall Hc He.
  assert ((c, calc) ∈ map_to_list (_calculators cls)) as Hin
    by (by apply elem_of_map_to_list).
  pose proof (forallb_elem _ _ _ Hall Hin) as H1. simpl in H1.
  apply elem_of_dict_keys in He.
  pose proof (forallb_elem _ _ _ H1 He) as H2. simpl in H2.
  destruct (getattr calc e) as [[| | | m |]|]; try discriminate.
  apply bool_decide_eq_true in H2 as [tag Htag]. eauto.
Qed.

Lemma group_values_total self :
  group_fields_present self = true ->
  exists gvalues, comprehension (doc_field self) (group_by self) = Ok gvalues.
Proof.
  intros Hall. apply comprehension_total. intros attr Hin.
  pose proof (forallb_elem _ _ _ Hall Hin) as H. simpl in H.
  apply bool_decide_eq_true in H as [v Hv]. exists v.
  unfold doc_field. by rewrite Hv.
Qed.

(** The first loop of [diff] with a previous document raises nothing but
    [KeyError]. *)
Lemma diff_keys_prev_raise self prev calcs dk e :
  for_each (diff_keys_step self (Some prev)) calcs dk = Raise e -> e = KeyError.
Proof.
  apply for_each_raise. intros acc c e' _. unfold diff_keys_step, getitem.
  destruct (state prev !! c); simpl; [|congruence].
  destruct (_shallow_dict_diff _ _) as [ns|]; [|done]. by destruct (names_truthy ns).
Qed.

(** ... and when it completes, [diff_keys] holds the changed names of the
    calculators visited. *)
Lemma diff_keys_prev_lookup self prev calcs dk dk' c :
  NoDup calcs ->
  for_each (diff_keys_step self (Some prev)) calcs dk = Ok dk' ->
  dk' !! c =
  match (if bool_decide (c ∈ calcs) then changed_names self prev c else None) with
  | Some ns => Some ns
  | None => dk !! c
  end.
Proof.
  revert dk. induction calcs as [|c0 calcs IH]; intros dk Hnd Hloop.
  - injection Hloop as <-. rewrite bool_decide_eq_false_2; [done|apply not_elem_of_nil].
  - apply NoDup_cons in Hnd as [Hc0 Hnd]. simpl in Hloop.
    apply bind_Ok in Hloop as (dk1 & Hstep & Hloop).
    rewrite (IH dk1 Hnd Hloop).
    assert (dk1 !! c = if decide (c = c0)
                       then match changed_names self prev c0 with
                            | Some ns => Some ns | None => dk !! c end
                       else dk !! c) as Hdk1.
    { unfold diff_keys_step, getitem in Hstep. unfold changed_names.
      destruct (state prev !! c0) as [right_|]; simpl in Hstep; [|discriminate].
      destruct (_shallow_dict_diff _ _) as [ns|].
      - destruct (names_truthy ns); injection Hstep as <-.
        + destruct (decide (c = c0)) as [->|Hc];
            [by rewrite lookup_insert_eq|by rewrite lookup_insert_ne].
        + by destruct (decide (c = c0)) as [->|Hc].
      - injection Hstep as <-. by destruct (decide (c = c0)) as [->|Hc]. }
    destruct (decide (c = c0)) as [->|Hne].
    + rewrite (bool_decide_eq_false_2 (c0 ∈ calcs)) by done.
      rewrite (bool_decide_eq_true_2 (c0 ∈ c0 :: calcs)) by left. done.
    + assert (bool_decide (c ∈ c0 :: calcs) = bool_decide (c ∈ calcs)) as ->.
      { apply bool_decide_ext. rewrite elem_of_cons. naive_solver. }
      by rewrite Hdk1.
Qed.

(** One change entry against a previous document: [KeyError] when the name
    is missing on either side, an entry otherwise. *)
Lemma indicator_change_prev cls self prev c calc right_ e :
  state_resolves cls self = true ->
  _calculators cls !! c = Some calc ->
  state prev !! c = Some right_ ->
  (doc_calc self c !! e = None \/ right_ !! e = None ->
   indicator_change cls self c (Some prev) e = Raise KeyError) /\
  (is_Some (doc_calc self c !! e) -> is_Some (right_ !! e) ->
   exists ch, indicator_change cls self c (Some prev) e = Ok ch).
Proof.
  intros Hres Hc Hprev. unfold indicator_change, getitem. rewrite Hprev, Hc. simpl.
  split.
  - intros Hmiss.
    destruct (doc_calc self c !! e) as [mine|] eqn:Hm; simpl; [|done].
    destruct Hmiss as [?|Hr]; [done|]. by rewrite Hr.
  - intros [mine Hm] [theirs Ht]. rewrite Hm, Ht. simpl.
    destruct (state_resolves_elem cls self c calc e Hres Hc) as (m & tag & Hg & Htag);
      [by rewrite Hm|].
    rewrite Hg. simpl. rewrite Htag. simpl. eauto.
Qed.

(** C10: when, for some calculator, the current and the previous state bind
    different sets of emitter names, [diff] raises [KeyError] instead of
    returning a descriptor. *)
Theorem diff_key_sets_differ_raises cls self prev c right_ :
  state_resolves cls self = true ->
  group_fields_present self = true ->
  is_Some (_calculators cls !! c) ->
  state prev !! c = Some right_ ->
  dom (doc_calc self c) ≠ dom right_ ->
  IndicatorDocument_diff cls self (Some prev) = Raise KeyError.
Proof.
  intros Hres Hgrp Hc Hprev Hdom. unfold IndicatorDocument_diff.
  destruct (for_each _ _ _) as [dk|e] eqn:Hloop; simpl.
  2:{ by rewrite (diff_keys_prev_raise _ _ _ _ _ Hloop). }
  pose proof (fun c' => diff_keys_prev_lookup self prev _ ∅ dk c'
                          (NoDup_dict_keys _) Hloop) as Hdk.
  assert (forall c' ns, dk !! c' = Some ns ->
            is_Some (_calculators cls !! c') /\ changed_names self prev c' = Some ns)
    as Hentry.
  { intros c' ns Hl. rewrite Hdk in Hl. case_bool_decide as Hin.
    - destruct (changed_names self prev c') as [ns'|] eqn:Hch;
        [|by rewrite lookup_empty in Hl].
      split; [by apply elem_of_dict_keys|congruence].
    - by rewrite lookup_empty in Hl. }
  destruct (shallow_dict_diff_differ _ _ Hdom) as (ns0 & e0 & Hd0 & Ht0 & He0 & Hmiss0).
  assert (dk !! c = Some ns0) as Hc0.
  { rewrite Hdk. rewrite bool_decide_eq_true_2 by (by apply elem_of_dict_keys).
    unfold changed_names. by rewrite Hprev, Hd0, Ht0. }
  rewrite (dict_truthy_lookup dk c ns0 Hc0). simpl.
  destruct (group_values_total self Hgrp) as [gvalues ->]. simpl.
  rewrite (comprehension_raises _ _ KeyError); [done| |].
  - intros [c' ns] Hin%elem_of_map_to_list.
    destruct (Hentry c' ns Hin) as [[calc Hcalc] Hch].
    unfold changed_names in Hch.
    destruct (state prev !! c') as [r'|] eqn:Hr'; [|discriminate].
    destruct (_shallow_dict_diff (doc_calc self c') r') as [ns'|] eqn:Hd'; [|discriminate].
    destruct (names_truthy ns'); [|discriminate]. injection Hch as ->.
    unfold _indicator_diff. apply comprehension_ok_or. intros e He.
    apply (shallow_dict_diff_names _ _ _ e Hd') in He as [_ Hne].
    destruct (indicator_change_prev cls self prev c' calc r' e Hres Hcalc Hr')
      as [Hraise Hok].
    destruct (doc_calc self c' !! e) as [mine|] eqn:Hm; [|right; apply Hraise; by left].
    destruct (r' !! e) as [theirs|] eqn:Ht; [|right; apply Hraise; by right].
    left. apply Hok; eauto.
  - exists (c, ns0). split; [by apply elem_of_map_to_list|].
    destruct Hc as [calc Hcalc].
    unfold _indicator_diff. apply comprehension_raises.
    + intros e He.
      apply (shallow_dict_diff_names _ _ _ e Hd0) in He as [_ Hne].
      destruct (indicator_change_prev cls self prev c calc right_ e Hres Hcalc Hprev)
        as [Hraise Hok].
      destruct (doc_calc self c !! e) as [mine|] eqn:Hm; [|right; apply Hraise; by left].
      destruct (right_ !! e) as [theirs|] eqn:Ht; [|right; apply Hraise; by right].
      left. apply Hok; eauto.
    + exists e0. split; [done|].
      by apply (indicator_change_prev cls self prev c calc right_ e0 Hres Hcalc Hprev).
Qed.

Lemma diff_key_sets_differ_raises_witness :
  IndicatorDocument_diff Sample.Indicators
    (Sample.doc_with {[ "all_visits" := [VInt 2] ]})
    (Some (Sample.doc_with {[ "owner" := [VInt 2] ]})) = Raise KeyError.
Proof.
  apply (diff_key_sets_differ_raises Sample.Indicators _ _ "C" {[ "owner" := [VInt 2] ]}).
  - vm_compute. reflexivity.
  - vm_compute. reflexivity.
  - eexists. reflexivity.
  - reflexivity.
  - intros Heq. apply (f_equal (fun s => bool_decide ("owner" ∈ s))) in Heq.
    vm_compute in Heq. discriminate.
Defined.

(** ** diff without a previous document *)

Lemma elem_of_nonempty_names (m : gmap string (list value)) e :
  e ∈ nonempty_names m <-> exists vs, m !! e = Some vs /\ vs ≠ [].
Proof.
  unfold nonempty_names. rewrite list_elem_of_fmap. split.
  - intros ([e' vs] & -> & Hin). apply list_elem_of_filter in Hin as [Ht Hin].
    apply elem_of_map_to_list in Hin. simpl in *. exists vs. split; [done|].
    by destruct vs.
  - intros (vs & Hm & Hne). exists (e, vs). split; [done|].
    apply list_elem_of_filter. split; [by destruct vs|by apply elem_of_map_to_list].
Qed.

Lemma append_name_lookup calc dk e c :
  append_name calc dk e !! c =
  if decide (c = calc) then extend_names (dk !! calc) [e] else dk !! c.
Proof.
  unfold append_name.
  destruct (decide (c = calc)) as [->|Hne].
  - destruct (dk !! calc) as [[l|s]|]; rewrite lookup_insert_eq; simpl; [done| |done].
    do 2 f_equal. set_solver.
  - destruct (dk !! calc) as [[l|s]|]; by rewrite lookup_insert_ne.
Qed.

Lemma extend_names_cons o e l :
  extend_names (extend_names o [e]) l = extend_names o (e :: l).
Proof.
  destruct o as [[old|s]|], l as [|x l]; simpl; try done;
    rewrite <- ?app_assoc; try done; do 2 f_equal; set_solver.
Qed.

(** The inner loop over [self[calc_name].items()]. *)
Lemma append_names_lookup calc (l : list (string * list value)) dk c :
  foldl (fun dk '(emitter_name, vs) =>
           if values_truthy vs then append_name calc dk emitter_name else dk) dk l !! c =
  if decide (c = calc)
  then extend_names (dk !! calc) (filter (fun kv => values_truthy kv.2 = true) l).*1
  else dk !! c.
Proof.
  revert dk. induction l as [|[e vs] l IH]; intros dk; simpl.
  - by destruct (decide (c = calc)) as [->|].
  - rewrite IH. destruct (values_truthy vs) eqn:Ht.
    + rewrite filter_cons_True by done. simpl.
      destruct (decide (c = calc)) as [->|Hne].
      * rewrite append_name_lookup, decide_True by done. apply extend_names_cons.
      * by rewrite append_name_lookup, decide_False by done.
    + rewrite filter_cons_False; [done|]. simpl. by rewrite Ht.
Qed.

(** The first loop of [diff] without a previous document never raises. *)
Lemma diff_keys_none_lookup self calcs dk :
  NoDup calcs ->
  exists dk',
    for_each (diff_keys_step self None) calcs dk = Ok dk' /\
    forall c,
      dk' !! c =
      if bool_decide (c ∈ calcs)
      then extend_names (dk !! c) (nonempty_names (doc_calc self c))
      else dk !! c.
Proof.
  revert dk. induction calcs as [|c0 calcs IH]; intros dk Hnd.
  - exists dk. split; [done|]. intros c.
    rewrite bool_decide_eq_false_2; [done|apply not_elem_of_nil].
  - apply NoDup_cons in Hnd as [Hc0 Hnd]. simpl.
    destruct (IH (foldl (fun dk '(emitter_name, vs) =>
                           if values_truthy vs then append_name c0 dk emitter_name else dk)
                        dk (map_to_list (doc_calc self c0))) Hnd) as (dk' & Hloop & Hdk').
    exists dk'. split; [exact Hloop|]. intros c. rewrite Hdk', !append_names_lookup.
    fold (nonempty_names (doc_calc self c0)).
    destruct (decide (c = c0)) as [->|Hne].
    + rewrite (bool_decide_eq_false_2 (c0 ∈ calcs)) by done.
      by rewrite (bool_decide_eq_true_2 (c0 ∈ c0 :: calcs)) by left.
    + assert (bool_decide (c ∈ c0 :: calcs) = bool_decide (c ∈ calcs)) as ->; [|done].
      apply bool_decide_ext. rewrite elem_of_cons. naive_solver.
Qed.

Lemma indicator_change_none_Ok cls self c calc e vs :
  state_resolves cls self = true ->
  _calculators cls !! c = Some calc ->
  doc_calc self c !! e = Some vs ->
  exists ty, indicator_change cls self c None e =
             Ok {| calculator := c; emitter := e; emitter_type := ty; values := vs |}.
Proof.
  intros Hres Hc Hm. unfold indicator_change, getitem. rewrite Hm, Hc. simpl.
  destruct (state_resolves_elem cls self c calc e Hres Hc) as (m & tag & Hg & Htag);
    [by rewrite Hm|].
  rewrite Hg. simpl. rewrite Htag. simpl. eauto.
Qed.

Lemma indicator_change_none_inv cls self c e ch :
  indicator_change cls self c None e = Ok ch ->
  calculator ch = c /\ emitter ch = e /\ doc_calc self c !! e = Some (values ch).
Proof.
  unfold indicator_change, getitem. intros H.
  apply bind_Ok in H as (vs & Hvs & H).
  apply bind_Ok in H as (calc & _ & H).
  apply bind_Ok in H as (em & _ & H).
  apply bind_Ok in H as (ty & _ & H). injection H as <-. simpl.
  destruct (doc_calc self c !! e); [|discriminate]. by injection Hvs as ->.
Qed.

(** C5: without a previous version, a document with at least one non-empty
    emitter sequence yields a descriptor whose changes contain every emitter
    with a non-empty sequence, with the full current sequence as values (and
    nothing else). *)
Theorem diff_first_version cls self :
  state_resolves cls self = true ->
  group_fields_present self = true ->
  (exists c e vs, is_Some (_calculators cls !! c) /\
                  doc_calc self c !! e = Some vs /\ vs ≠ []) ->
  exists d,
    IndicatorDocument_diff cls self None = Ok (Some d) /\
    (forall c e vs,
       is_Some (_calculators cls !! c) ->
       doc_calc self c !! e = Some vs -> vs ≠ [] ->
       exists ty, {| calculator := c; emitter := e; emitter_type := ty; values := vs |}
                  ∈ indicator_changes d) /\
    (forall ch, ch ∈ indicator_changes d ->
       is_Some (_calculators cls !! calculator ch) /\
       doc_calc self (calculator ch) !! emitter ch = Some (values ch) /\
       values ch ≠ []).
Proof.
  intros Hres Hgrp (c0 & e0 & vs0 & Hc0 & Hm0 & Hne0).
  unfold IndicatorDocument_diff.
  destruct (diff_keys_none_lookup self (dict_keys (_calculators cls)) ∅
              (NoDup_dict_keys _)) as (dk & -> & Hdk). simpl.
  assert (forall c, dk !! c =
            if bool_decide (is_Some (_calculators cls !! c))
            then match nonempty_names (doc_calc self c) with
                 | [] => None | l => Some (NamesList l) end
            else None) as Hdk'.
  { intros c. rewrite Hdk, lookup_empty.
    rewrite (bool_decide_ext _ _ (elem_of_dict_keys (_calculators cls) c)).
    destruct (bool_decide _); [|done]. by destruct (nonempty_names _). }
  clear Hdk.
  assert (forall c ns, dk !! c = Some ns ->
            is_Some (_calculators cls !! c) /\
            ns = NamesList (nonempty_names (doc_calc self c))) as Hentry.
  { intros c ns. rewrite Hdk'. case_bool_decide; [|done].
    destruct (nonempty_names _); [done|]. intros [= <-]. done. }
  assert (forall c e, is_Some (_calculators cls !! c) ->
            e ∈ nonempty_names (doc_calc self c) ->
            dk !! c = Some (NamesList (nonempty_names (doc_calc self c)))) as Hin.
  { intros c e Hc He. rewrite Hdk', bool_decide_eq_true_2 by done.
    destruct (nonempty_names _); [by apply elem_of_nil in He|done]. }
  assert (e0 ∈ nonempty_names (doc_calc self c0)) as He0
    by (apply elem_of_nonempty_names; eauto).
  rewrite (dict_truthy_lookup dk c0 _ (Hin c0 e0 Hc0 He0)). simpl.
  destruct (group_values_total self Hgrp) as [gvalues ->]. simpl.
  destruct (comprehension_total
              (fun '(calc_name, emitter_names) =>
                 _indicator_diff cls self calc_name emitter_names None)
              (map_to_list dk)) as [indicators Hind].
  { intros [c ns] Hl%elem_of_map_to_list.
    destruct (Hentry c ns Hl) as [[calc Hcalc] ->].
    unfold _indicator_diff. apply comprehension_total. simpl. intros e He.
    apply elem_of_nonempty_names in He as (vs & Hm & _).
    destruct (indicator_change_none_Ok cls self c calc e vs Hres Hcalc Hm) as [ty Hty].
    eauto. }
  rewrite Hind. simpl. eexists. split; [done|]. simpl. split.
  - intros c e vs Hc Hm Hne.
    assert (e ∈ nonempty_names (doc_calc self c)) as He
      by (apply elem_of_nonempty_names; eauto).
    pose proof (Hin c e Hc He) as Hl. apply elem_of_map_to_list in Hl.
    destruct (comprehension_elem _ _ _ _ Hind Hl) as (chs & Hchs & Hchsin).
    unfold _indicator_diff in Hchs. simpl in Hchs.
    destruct (comprehension_elem _ _ _ _ Hchs He) as (ch & Hch & Hchin).
    destruct Hc as [calc Hcalc].
    destruct (indicator_change_none_Ok cls self c calc e vs Hres Hcalc Hm) as [ty Hty].
    exists ty. rewrite Hty in Hch. injection Hch as <-.
    apply elem_of_concat. eauto.
  - intros ch (chs & Hchin & Hchs)%elem_of_concat.
    destruct (comprehension_elem_inv _ _ _ _ Hind Hchs) as ([c ns] & Hl & Hdiff).
    apply elem_of_map_to_list in Hl. destruct (Hentry c ns Hl) as [Hc ->].
    unfold _indicator_diff in Hdiff. simpl in Hdiff.
    destruct (comprehension_elem_inv _ _ _ _ Hdiff Hchin) as (e & He & Hch).
    apply indicator_change_none_inv in Hch as (-> & -> & Hm).
    split; [done|]. split; [done|].
    apply elem_of_nonempty_names in He as (vs & Hm' & Hne). congruence.
Qed.

Lemma diff_first_version_witness :
  exists d,
    IndicatorDocument_diff Sample.Indicators
      (Sample.doc_with {[ "all_visits" := [VInt 20] ]}) None = Ok (Some d) /\
    (forall c e vs,
       is_Some (_calculators Sample.Indicators !! c) ->
       doc_calc (Sample.doc_with {[ "all_visits" := [VInt 20] ]}) c !! e = Some vs ->
       vs ≠ [] ->
       exists ty, {| calculator := c; emitter := e; emitter_type := ty; values := vs |}
                  ∈ indicator_changes d) /\
    (forall ch, ch ∈ indicator_changes d ->
       is_Some (_calculators Sample.Indicators !! calculator ch) /\
       doc_calc (Sample.doc_with {[ "all_visits" := [VInt 20] ]}) (calculator ch)
         !! emitter ch = Some (values ch) /\
       values ch ≠ []).
Proof.
  apply (diff_first_version Sample.Indicators).
  - vm_compute. reflexivity.
  - vm_compute. reflexivity.
  - exists "C", "all_visits", [VInt 20].
    split; [eexists; reflexivity|]. split; [reflexivity|discriminate].
Defined.

(** ** The values of a change entry *)

Lemma set_minus_spec xs ys v : v ∈ set_minus xs ys <-> v ∈ xs /\ v ∉ ys.
Proof.
  unfold set_minus. rewrite elem_of_elements, elem_of_difference.
  by rewrite !elem_of_list_to_set.
Qed.

(** With a previous document, the values of a change entry are the current
    values that the previous sequence lacks. *)
Lemma indicator_change_prev_values cls self prev c e ch :
  indicator_change cls self c (Some prev) e = Ok ch ->
  exists mine other_calc theirs,
    doc_calc self c !! e = Some mine /\
    state prev !! c = Some other_calc /\
    other_calc !! e = Some theirs /\
    forall v, v ∈ values ch <-> v ∈ mine /\ v ∉ theirs.
Proof.
  unfold indicator_change, getitem. intros H.
  apply bind_Ok in H as (vd & Hvd & H).
  apply bind_Ok in H as (calc & _ & H).
  apply bind_Ok in H as (em & _ & H).
  apply bind_Ok in H as (ty & _ & H). injection H as <-. simpl.
  destruct (doc_calc self c !! e) as [mine|]; [|discriminate].
  destruct (state prev !! c) as [other_calc|]; [|discriminate]. simpl in Hvd.
  destruct (other_calc !! e) as [theirs|] eqn:Ht; [|discriminate]. injection Hvd as <-.
  exists mine, other_calc, theirs. do 3 (split; [done|]).
  intros v. apply set_minus_spec.
Qed.

(** C1, on the code: for previous [1,2,3] and current [2,3,4] the entry of
    emitter [e] carries [4] only, the removed [1] is not reported; and when
    a value is only removed, the entry is reported with no values at all. *)
Theorem diff_values_current_minus_previous :
  IndicatorDocument_diff Sample.Indicators
    (Sample.doc_with {[ "e" := [VInt 2; VInt 3; VInt 4] ]})
    (Some (Sample.doc_with {[ "e" := [VInt 1; VInt 2; VInt 3] ]})) =
  Ok (Some {| database := "fluff"; doc_type := "MyIndicators";
              group_names := ["domain"]; group_values := [VStr "test"];
              indicator_changes :=
                [{| calculator := "C"; emitter := "e"; emitter_type := "date";
                    values := [VInt 4] |}] |}) /\
  IndicatorDocument_diff Sample.Indicators
    (Sample.doc_with {[ "e" := [VInt 2; VInt 3] ]})
    (Some (Sample.doc_with {[ "e" := [VInt 1; VInt 2; VInt 3] ]})) =
  Ok (Some {| database := "fluff"; doc_type := "MyIndicators";
              group_names := ["domain"]; group_values := [VStr "test"];
              indicator_changes :=
                [{| calculator := "C"; emitter := "e"; emitter_type := "date";
                    values := [] |}] |}).
Proof. split; vm_compute; reflexivity. Qed.

(** ** The change pipeline *)

Lemma for_each_raise_prop {A S} (P : exn -> Prop) (step : S -> A -> result S)
    (xs : list A) (acc : S) e :
  (forall acc x e', step acc x = Raise e' -> P e') ->
  for_each step xs acc = Raise e -> P e.
Proof.
  intros Hstep. revert acc. induction xs as [|x xs IH]; intros acc; simpl; [done|].
  destruct (step acc x) as [acc'|e'] eqn:Hx; simpl; [apply IH|].
  intros [= <-]. by eapply Hstep.
Qed.

Lemma getattr_raise self name e : getattr self name = Raise e -> recompute_failure e.
Proof.
  unfold getattr. destruct (inst_dict self !! name); [done|].
  destruct (cls_dict (klass self) !! name); [done|]. intros [= <-]. by left.
Qed.

Lemma call_method_raise self slug arg e :
  call_method self slug arg = Raise e -> recompute_failure e.
Proof.
  unfold call_method. destruct (getattr self slug) as [o|e'] eqn:Hg; simpl.
  - destruct o; try done; intros [= <-]; by right.
  - intros [= <-]. by eapply getattr_raise.
Qed.

Lemma all_filters_raise self item slugs e :
  all_filters self item slugs = Raise e -> recompute_failure e.
Proof.
  induction slugs as [|s rest IH]; simpl; [done|].
  destruct (call_method self s (ArgItem item)) as [r|e'] eqn:Hc; simpl.
  - destruct (truthy_ret r); [exact IH|done].
  - intros [= <-]. by eapply call_method_raise.
Qed.

Lemma calculate_step_raise self item passes values slug e :
  calculate_step self item passes values slug = Raise e -> recompute_failure e.
Proof.
  unfold calculate_step. destruct (getattr self slug) as [o|e'] eqn:Hg; simpl.
  2:{ intros [= <-]. by eapply getattr_raise. }
  destruct (emitter_type_of o) as [tag|e'] eqn:Ht; simpl.
  2:{ intros [= <-]. destruct o as [| | | m |]; simpl in Ht; try (injection Ht as <-; by left).
      destruct (_fluff_emitter m); [discriminate|]. injection Ht as <-. by left. }
  destruct (is_stored_type tag); [|done].
  destruct passes; [|done].
  destruct o as [| | | m |]; simpl; try (intros [= <-]; by right).
  destruct (call m (ArgItem item)); simpl; [|done]. intros [= <-]. by right.
Qed.

Lemma Calculator_calculate_raise self item e :
  Calculator_calculate self item = Raise e -> recompute_failure e.
Proof.
  unfold Calculator_calculate.
  destruct (call_method self "filter" (ArgItem item)) as [f|e'] eqn:Hf; simpl.
  2:{ intros [= <-]. by eapply call_method_raise. }
  destruct (if truthy_ret f then _ else _) as [passes|e'] eqn:Hp; simpl.
  2:{ intros [= <-]. destruct (truthy_ret f); [by eapply all_filters_raise|done]. }
  apply for_each_raise_prop. intros acc x e1. apply calculate_step_raise.
Qed.

Lemma IndicatorDocument_calculate_raise cls self item e :
  IndicatorDocument_calculate cls self item = Raise e -> recompute_failure e.
Proof.
  unfold IndicatorDocument_calculate.
  destruct (for_each _ (map_to_list (_calculators cls)) self) as [self1|e'] eqn:H1; simpl.
  2:{ intros [= <-]. revert H1. apply for_each_raise_prop.
      intros acc [attr calc] e1.
      destruct (Calculator_calculate calc item) as [v|e2] eqn:Hc; simpl; [done|].
      intros [= <-]. by eapply Calculator_calculate_raise. }
  destruct (for_each _ (group_by self1) _) as [self2|e'] eqn:H2; simpl; [done|].
  intros [= <-]. revert H2. apply for_each_raise_prop.
  intros acc attr e1. unfold item_field.
  destruct (item_fields item !! attr); simpl; [done|]. intros [= <-]. by left.
Qed.

(** C8: when the store has no indicator document under the derived identity,
    the pipeline recomputes a fresh document, hands on [None] as the
    previous version, never surfaces [ResourceNotFound], and the diff that
    follows the save is taken against no previous version. *)
Theorem change_transform_not_found self db doc_dict doc :
  document_class_wrap self doc_dict = Ok doc ->
  store_get db (ind_name (indicator_class self) ++ "-" ++ get_id doc)
    = Raise ResourceNotFound ->
  let cls := indicator_class self in
  let fresh := new_indicator cls (ind_name cls ++ "-" ++ get_id doc) in
  change_transform self db doc_dict =
    (let* indicator := IndicatorDocument_calculate cls fresh doc in
     Ok (None, indicator)) /\
  change_transform self db doc_dict ≠ Raise ResourceNotFound /\
  process_change self db doc_dict =
    (let* indicator := IndicatorDocument_calculate cls fresh doc in
     let* diff := IndicatorDocument_diff cls indicator None in
     Ok (<[_id indicator := indicator]> db, diff)).
Proof.
  intros Hwrap Hget cls fresh.
  assert (change_transform self db doc_dict =
          (let* indicator := IndicatorDocument_calculate cls fresh doc in
           Ok (None, indicator))) as Htransform.
  { unfold change_transform, get_or_none. rewrite Hwrap. simpl. by rewrite Hget. }
  split; [done|]. split.
  - rewrite Htransform.
    destruct (IndicatorDocument_calculate cls fresh doc) as [ind|e] eqn:Hc; simpl; [done|].
    intros [= ->]. by destruct (IndicatorDocument_calculate_raise _ _ _ _ Hc).
  - unfold process_change. rewrite Htransform.
    destruct (IndicatorDocument_calculate cls fresh doc) as [ind|e]; done.
Qed.

Lemma change_transform_not_found_witness :
  let self := Sample.pillow in
  let doc := {| get_id := "abc"; item_fields := Sample.raw_change |} in
  let cls := indicator_class self in
  let fresh := new_indicator cls (ind_name cls ++ "-" ++ get_id doc) in
  change_transform self ∅ Sample.raw_change =
    (let* indicator := IndicatorDocument_calculate cls fresh doc in
     Ok (None, indicator)) /\
  change_transform self ∅ Sample.raw_change ≠ Raise ResourceNotFound /\
  process_change self ∅ Sample.raw_change =
    (let* indicator := IndicatorDocument_calculate cls fresh doc in
     let* diff := IndicatorDocument_diff cls indicator None in
     Ok (<[_id indicator := indicator]> ∅, diff)).
Proof.
  apply (change_transform_not_found Sample.pillow ∅ Sample.raw_change
           {| get_id := "abc"; item_fields := Sample.raw_change |}).
  - vm_compute. reflexivity.
  - vm_compute. reflexivity.
Defined.

(** ** The result reader *)

(** C9: a reduced read of a DATE or NULL emitter whose query returns no rows
    answers the count 0; it does not raise. *)
Theorem reduced_read_empty_range (view : view_query -> list row) (now : Z)
    self slug calc m ty cls window :
  _calculators (indicator_doc self) !! calc_name self = Some calc ->
  Calculator_init cls window = Ok calc ->
  getattr calc slug = Ok (PyFunction m) ->
  _fluff_emitter m = Some ty ->
  ty = "date" \/ ty = "null" ->
  (forall start end_,
     ty = "date" ->
     get_window calc now slug = Ok (start, end_) ->
     view (ViewRange (shared_key self slug ++ [KDate start])
                     (shared_key self slug ++ [KDate end_]) true) = []) ->
  (ty = "null" -> view (ViewKey (shared_key self slug ++ [KNull]) true) = []) ->
  FluffResult_get view now self slug true = Ok (GCount 0).
Proof.
  intros Hcalc Hinit Hm Hty Hkind Hdate Hnull.
  unfold FluffResult_get, getitem. rewrite Hcalc. simpl. rewrite Hm. simpl.
  rewrite Hty. simpl.
  destruct Hkind as [-> | ->]; simpl.
  - destruct (Calculator_init_Ok _ _ _ Hinit) as (o & d & Ho & Hw & _).
    assert (exists start end_, get_window calc now slug = Ok (start, end_))
      as (start & end_ & Hgw).
    { unfold get_window. rewrite Ho. simpl.
      destruct (o !! slug) as [[s e]|]; [eauto|]. rewrite Hw. simpl. eauto. }
    rewrite Hgw. simpl.
    pose proof (Hdate start end_ eq_refl Hgw) as Hq.
    unfold shared_key in Hq. simpl in Hq. by rewrite Hq.
  - pose proof (Hnull eq_refl) as Hq.
    unfold shared_key in Hq. simpl in Hq. by rewrite Hq.
Qed.

Lemma reduced_read_empty_range_witness :
  FluffResult_get (fun _ => []) 100 Sample.visits_result "all_visits" true
  = Ok (GCount 0).
Proof.
  apply (reduced_read_empty_range (fun _ => []) 100 Sample.visits_result "all_visits"
           Sample.visits_calc
           (date_emitter (def (fun a => RSeq (Sample.item_values a "date"))))
           "date" Sample.Visits (PyTimedelta 30)).
  - reflexivity.
  - vm_compute. reflexivity.
  - reflexivity.
  - reflexivity.
  - left. reflexivity.
  - reflexivity.
  - reflexivity.
Defined.

(** ** What recomputation establishes *)

Lemma forallb_intro {A} (f : A -> bool) (l : list A) :
  (forall x, x ∈ l -> f x = true) -> forallb f l = true.
Proof.
  intros H. apply forallb_forall. intros x Hx. apply H. by apply list_elem_of_In.
Qed.

(** Every key [calculate] stores is a declared name bound to a tagged
    function. *)
Lemma calculate_loop_keys self item passes slugs acc values e :
  for_each (calculate_step self item passes) slugs acc = Ok values ->
  is_Some (values !! e) ->
  is_Some (acc !! e) \/
  exists m tag, getattr self e = Ok (PyFunction m) /\ _fluff_emitter m = Some tag.
Proof.
  revert acc. induction slugs as [|s rest IH]; intros acc Hloop Hin; simpl in Hloop.
  - injection Hloop as <-. by left.
  - apply bind_Ok in Hloop as (acc1 & Hstep & Hloop).
    destruct (IH acc1 Hloop Hin) as [Hacc1|?]; [|by right].
    unfold calculate_step in Hstep.
    apply bind_Ok in Hstep as (em & Hem & Hstep).
    apply bind_Ok in Hstep as (tag & Htag & Hstep).
    destruct (is_stored_type tag); [|injection Hstep as <-; by left].
    apply bind_Ok in Hstep as (vs & _ & Hstep). injection Hstep as <-.
    destruct (decide (e = s)) as [->|Hne]; [|rewrite lookup_insert_ne in Hacc1; auto].
    right. destruct em as [| | | m |]; try discriminate. simpl in Htag.
    destruct (_fluff_emitter m) as [t|] eqn:Ht; [|discriminate]. eauto.
Qed.

Lemma Calculator_calculate_keys self item values e :
  Calculator_calculate self item = Ok values ->
  is_Some (values !! e) ->
  exists m tag, getattr self e = Ok (PyFunction m) /\ _fluff_emitter m = Some tag.
Proof.
  unfold Calculator_calculate. intros H Hin.
  apply bind_Ok in H as (f & _ & H). apply bind_Ok in H as (passes & _ & H).
  destruct (calculate_loop_keys _ _ _ _ _ _ e H Hin) as [[v Hv]|?]; [|done].
  by rewrite lookup_empty in Hv.
Qed.

Lemma calculators_loop_other item (l : list (string * Calculator)) self self1 c :
  for_each (fun self '(attr, calculator) =>
              let* v := Calculator_calculate calculator item in
              Ok (set_calc self attr v)) l self = Ok self1 ->
  c ∉ l.*1 ->
  state self1 !! c = state self !! c /\ fields self1 = fields self /\
  group_by self1 = group_by self.
Proof.
  revert self. induction l as [|[c0 calc0] l IH]; intros self Hloop Hnin; simpl in Hloop.
  - by injection Hloop as <-.
  - apply bind_Ok in Hloop as (self0 & Hstep & Hloop).
    apply bind_Ok in Hstep as (v & _ & Hstep). injection Hstep as <-.
    simpl in Hnin. apply not_elem_of_cons in Hnin as [Hne Hnin].
    destruct (IH _ Hloop Hnin) as (-> & -> & ->). simpl.
    by rewrite lookup_insert_ne.
Qed.

Lemma calculators_loop_fields item (l : list (string * Calculator)) self self1 :
  for_each (fun self '(attr, calculator) =>
              let* v := Calculator_calculate calculator item in
              Ok (set_calc self attr v)) l self = Ok self1 ->
  fields self1 = fields self /\ group_by self1 = group_by self.
Proof.
  revert self. induction l as [|[c0 calc0] l IH]; intros self Hloop; simpl in Hloop.
  - by injection Hloop as <-.
  - apply bind_Ok in Hloop as (self0 & Hstep & Hloop).
    apply bind_Ok in Hstep as (v & _ & Hstep). injection Hstep as <-.
    by destruct (IH _ Hloop) as (-> & ->).
Qed.

Lemma calculators_loop_state item (l : list (string * Calculator)) self self1 c calc :
  NoDup l.*1 ->
  for_each (fun self '(attr, calculator) =>
              let* v := Calculator_calculate calculator item in
              Ok (set_calc self attr v)) l self = Ok self1 ->
  (c, calc) ∈ l ->
  exists v, Calculator_calculate calc item = Ok v /\ state self1 !! c = Some v.
Proof.
  revert self. induction l as [|[c0 calc0] l IH]; intros self Hnd Hloop Hin.
  - by apply elem_of_nil in Hin.
  - simpl in Hnd. apply NoDup_cons in Hnd as [Hc0 Hnd]. simpl in Hloop.
    apply bind_Ok in Hloop as (self0 & Hstep & Hloop).
    apply bind_Ok in Hstep as (v & Hv & Hstep). injection Hstep as <-.
    apply elem_of_cons in Hin as [[= -> ->]|Hin]; [|by eapply IH].
    exists v. split; [done|].
    destruct (calculators_loop_other _ _ _ _ c0 Hloop Hc0) as (-> & _). simpl.
    by rewrite lookup_insert_eq.
Qed.

Lemma group_loop_fields item (attrs : list string) self self2 :
  for_each (fun self attr =>
              let* v := item_field item attr in
              Ok (set_field self attr v)) attrs self = Ok self2 ->
  state self2 = state self /\
  forall a, a ∈ attrs \/ is_Some (fields self !! a) -> is_Some (fields self2 !! a).
Proof.
  revert self. induction attrs as [|a0 attrs IH]; intros self Hloop; simpl in Hloop.
  - injection Hloop as <-. split; [done|]. intros a [Ha|?]; [|done].
    by apply elem_of_nil in Ha.
  - apply bind_Ok in Hloop as (self0 & Hstep & Hloop).
    apply bind_Ok in Hstep as (v & _ & Hstep). injection Hstep as <-.
    destruct (IH _ Hloop) as [-> Hf]. split; [done|]. intros a Ha. apply Hf. simpl.
    destruct (decide (a = a0)) as [->|Hne]; [right; by rewrite lookup_insert_eq|].
    rewrite lookup_insert_ne by done.
    destruct Ha as [Ha|?]; [|by right]. apply elem_of_cons in Ha as [?|?]; [done|by left].
Qed.

(** A recomputed document meets what [diff] relies on: its stored emitter
    names are emitters of their calculators, and, when the document carried
    the type's default [group_by], its group fields are present. *)
Lemma calculate_establishes cls self item self' :
  IndicatorDocument_calculate cls self item = Ok self' ->
  state_resolves cls self' = true /\
  (group_by self = default_group_by cls -> group_fields_present self' = true).
Proof.
  unfold IndicatorDocument_calculate. intros H.
  apply bind_Ok in H as (self1 & H1 & H).
  apply bind_Ok in H as (self2 & H2 & H). injection H as <-.
  apply group_loop_fields in H2 as [Hst Hf]. simpl in *.
  destruct (calculators_loop_fields _ _ _ _ H1) as [Hfields Hgb].
  split.
  - unfold state_resolves. apply forallb_intro. intros [c calc] Hin.
    apply forallb_intro. intros e He%elem_of_dict_keys.
    destruct (calculators_loop_state item _ self self1 c calc
                (NoDup_fst_map_to_list _) H1 Hin) as (v & Hv & Hsv).
    unfold doc_calc in He. simpl in He. rewrite Hst, Hsv in He. simpl in He.
    destruct (Calculator_calculate_keys calc item v e Hv He) as (m & tag & -> & Htag).
    apply bool_decide_eq_true. eauto.
  - intros Hdef. unfold group_fields_present. simpl. apply forallb_intro.
    intros a Ha. apply bool_decide_eq_true. apply Hf. left. by rewrite Hgb, Hdef.
Qed.
